(** * Orders: creation, cancellation, webhook reconciliation, admin reporting

    A shallow embedding of [backend/orders/views.py].  Every view is a
    function in a small state monad over the [World]: the order table, the
    stock column of the product table, the log of calls made to the payment
    gateway and the confirmation e-mails handed to the task layer.

    The payment gateway ([stripe]) is an oracle: a record of functions giving,
    for each call, what the gateway answers (a value or a [StripeError]).
    The views are proved correct for every such oracle. *)

From Stdlib Require Import ZArith List String Bool Lia QArith Qround.
Import ListNotations.
Open Scope string_scope.
Open Scope Z_scope.

Set Implicit Arguments.

(** ** Data model *)

Definition OrderId := Z.
Definition ProductId := Z.
Definition UserId := Z.

(** [request.user]: the views run behind [IsAuthenticated], so the caller of
    a view that takes a [User] is an authenticated user.  The webhook, whose
    sender is the payment gateway, takes the caller as an option: [None] is a
    request without credentials. *)
Record User := { user_id : UserId; is_admin : bool }.

(** A line item of an order: [item.product], [item.quantity] and the unit
    price captured at order time. *)
Record OrderItem := {
  item_product : ProductId;
  item_quantity : Z;
  item_price : Z
}.

(** A row of the [Order] table together with its line items
    ([order.items.all()]).  Amounts are in minor currency units.  The nullable
    columns are options. *)
Record Order := {
  o_id : OrderId;
  o_user : UserId;
  o_items : list OrderItem;
  o_total_amount : Z;
  o_status : string;
  o_payment_method : option string;
  o_payment_status : string;
  o_payment_intent_id : option string;
  o_created_at : Z
}.

Definition with_status (s : string) (o : Order) : Order :=
  {| o_id := o_id o; o_user := o_user o; o_items := o_items o;
     o_total_amount := o_total_amount o; o_status := s;
     o_payment_method := o_payment_method o;
     o_payment_status := o_payment_status o;
     o_payment_intent_id := o_payment_intent_id o;
     o_created_at := o_created_at o |}.

Definition with_payment_status (s : string) (o : Order) : Order :=
  {| o_id := o_id o; o_user := o_user o; o_items := o_items o;
     o_total_amount := o_total_amount o; o_status := o_status o;
     o_payment_method := o_payment_method o;
     o_payment_status := s;
     o_payment_intent_id := o_payment_intent_id o;
     o_created_at := o_created_at o |}.

(** ** Python values *)

(** [x == s] for a value that may be [None]. *)
Definition py_eq (x : option string) (s : string) : bool :=
  match x with
  | Some y => String.eqb y s
  | None => false
  end.

(** Truth value of a string-or-[None]: [None] and [''] are falsy. *)
Definition truthy (x : option string) : bool :=
  match x with
  | Some y => negb (String.eqb y "")
  | None => false
  end.

(** [s in l] for a list of strings. *)
Fixpoint py_in (s : string) (l : list string) : bool :=
  match l with
  | [] => false
  | x :: l' => String.eqb s x || py_in s l'
  end.

(** ** The payment gateway *)

Inductive StripeResult (A : Type) : Type :=
| Returned (a : A)
| StripeError (msg : string).
Arguments Returned {A} a.
Arguments StripeError {A} msg.

Record PaymentIntent := { pi_status : string; pi_amount : Z }.
Record Refund := { refund_status : string }.

(** [event['type']] and [event['data']['object']['id']]. *)
Record WebhookEvent := { event_type : string; event_object_id : string }.

Inductive ConstructResult : Type :=
| Event (e : WebhookEvent)
| ValueError
| SignatureVerificationError.

Record Stripe := {
  PaymentIntent_retrieve : string -> StripeResult PaymentIntent;
  Refund_create : string -> StripeResult Refund;
  Webhook_construct_event : string -> option string -> string -> ConstructResult
}.

(** Calls that leave the process. *)
Inductive StripeCall : Type :=
| CallRetrieve (payment_intent_id : string)
| CallRefund (payment_intent_id : string).

(** [send_order_confirmation_email.delay(id)] queues the task,
    [send_order_confirmation_email(id)] runs it in the request. *)
Inductive Email : Type :=
| EmailQueued (order : OrderId)
| EmailSent (order : OrderId).

(** ** The world and the monad of views *)

Record World := {
  orders : list Order;
  stock : ProductId -> Z;
  stripe_calls : list StripeCall;
  emails : list Email;
  next_id : OrderId
}.

Definition M (A : Type) : Type := World -> A * World.

Definition ret {A} (a : A) : M A := fun w => (a, w).

Definition bind {A B} (m : M A) (k : A -> M B) : M B :=
  fun w => let (a, w') := m w in k a w'.

Declare Scope view_scope.
Delimit Scope view_scope with view.
Notation "x <- m ;; k" := (bind m (fun x => k))
  (at level 61, m at next level, right associativity) : view_scope.
Notation "m ;; k" := (bind m (fun _ => k))
  (at level 61, right associativity) : view_scope.
Open Scope view_scope.

Definition set_orders (l : list Order) (w : World) : World :=
  {| orders := l; stock := stock w; stripe_calls := stripe_calls w;
     emails := emails w; next_id := next_id w |}.

Definition set_stock (f : ProductId -> Z) (w : World) : World :=
  {| orders := orders w; stock := f; stripe_calls := stripe_calls w;
     emails := emails w; next_id := next_id w |}.

(** Record a call to the gateway and return its answer. *)
Definition stripe_call {A} (c : StripeCall) (answer : StripeResult A)
  : M (StripeResult A) :=
  fun w => (answer,
            {| orders := orders w; stock := stock w;
               stripe_calls := stripe_calls w ++ [c];
               emails := emails w; next_id := next_id w |}).

Definition send_email (e : Email) : M unit :=
  fun w => (tt,
            {| orders := orders w; stock := stock w;
               stripe_calls := stripe_calls w;
               emails := emails w ++ [e]; next_id := next_id w |}).

(** ** The ORM *)

(** [get_object_or_404(Order, id=..., ...)]: a lookup on the primary key,
    so at most one row matches; [None] stands for [Http404]. *)
Definition get_object (p : Order -> bool) : M (option Order) :=
  fun w => (find p (orders w), w).

Inductive GetResult : Type :=
| Found (o : Order)
| DoesNotExist
| MultipleObjectsReturned.

(** [Order.objects.get(...)]: exactly one row, or an exception. *)
Definition objects_get (p : Order -> bool) : M GetResult :=
  fun w => (match filter p (orders w) with
            | [] => DoesNotExist
            | [o] => Found o
            | _ :: _ :: _ => MultipleObjectsReturned
            end, w).

(** [order.save()] on a loaded row: UPDATE ... WHERE id = order.id. *)
Definition update_row (o : Order) (l : list Order) : list Order :=
  map (fun r => if o_id r =? o_id o then o else r) l.

Definition save (o : Order) : M unit :=
  fun w => (tt, set_orders (update_row o (orders w)) w).

(** [product.stock += q; product.save()] on the product loaded through the
    line item. *)
Definition add_stock (p : ProductId) (q : Z) (f : ProductId -> Z)
  : ProductId -> Z :=
  fun p' => if p' =? p then f p + q else f p'.

(** ** Responses *)

Inductive Body : Type :=
| Error (msg : string)
| ValidationErrors
| NotFound
| OrderCreated (id : OrderId) (payment_status : string)
| Message (msg : string)
| StatusSuccess
| OrderData (o : Order)
| ServerError
| NotAuthenticated.

Record Response := { status_code : Z; data : Body }.

Definition HTTP_200_OK := 200.
Definition HTTP_201_CREATED := 201.
Definition HTTP_400_BAD_REQUEST := 400.
Definition HTTP_403_FORBIDDEN := 403.
Definition HTTP_404_NOT_FOUND := 404.
Definition HTTP_500_INTERNAL_SERVER_ERROR := 500.

(** ** Order creation *)

(** [request.data] of the creation endpoint. *)
Record RequestData := {
  rd_payment_method : option string;
  rd_payment_intent_id : option string;
  rd_items : list OrderItem;
  rd_total_amount : Z
}.

(** [serializer.validated_data]: a dictionary; the keys the view writes may be
    absent. *)
Record ValidatedData := {
  vd_items : list OrderItem;
  vd_total_amount : Z;
  vd_payment_method : option string;
  vd_payment_intent_id : option string;
  vd_payment_status : option string
}.

(** [validated_data['payment_intent_id'] = v] *)
Definition set_payment_intent_id (v : option string) (vd : ValidatedData)
  : ValidatedData :=
  {| vd_items := vd_items vd; vd_total_amount := vd_total_amount vd;
     vd_payment_method := vd_payment_method vd;
     vd_payment_intent_id := v;
     vd_payment_status := vd_payment_status vd |}.

(** [validated_data['payment_status'] = v] *)
Definition set_payment_status (v : string) (vd : ValidatedData)
  : ValidatedData :=
  {| vd_items := vd_items vd; vd_total_amount := vd_total_amount vd;
     vd_payment_method := vd_payment_method vd;
     vd_payment_intent_id := vd_payment_intent_id vd;
     vd_payment_status := Some v |}.

(** [Decimal(payment_intent.amount) / 100]. *)
Definition cents_to_decimal (amount : Z) : Q := (inject_Z amount / 100)%Q.

Section Views.

(** What [models.py] and [serializers.py], which are not among the sources,
    fix: the keys of [Order.STATUS_CHOICES], the defaults of the [status]
    and [payment_status] columns, and the serializer's rule on cart
    contents. *)
Variable STATUS_CHOICES : list string.
Variable status_default : string.
Variable payment_status_default : string.
Variable cart_valid : list OrderItem -> bool.

(** Modelled from the spec: [OrderCreateSerializer.is_valid], of the absent
    [serializers.py].  The request carries "a payment method selector,
    optional external payment reference, and cart contents"; "validation
    failure on cart contents" is "rejected by the serializer layer".  The
    validated data hold the cart and the payment method; the view itself
    records the external reference and the payment status.  [None] stands
    for the [ValidationError] of [raise_exception=True]. *)
Definition is_valid (d : RequestData) : option ValidatedData :=
  if cart_valid (rd_items d) then
    Some {| vd_items := rd_items d;
            vd_total_amount := rd_total_amount d;
            vd_payment_method := rd_payment_method d;
            vd_payment_intent_id := None;
            vd_payment_status := None |}
  else None.

(** Modelled from the spec: the stock side of order placement, of the absent
    [serializers.py]: a product's stock is "decremented at order
    placement". *)
Fixpoint take_stock (l : list OrderItem) (f : ProductId -> Z)
  : ProductId -> Z :=
  match l with
  | [] => f
  | i :: l' => take_stock l' (add_stock (item_product i) (- item_quantity i) f)
  end.

(** Modelled from the spec: [OrderCreateSerializer.save], of the absent
    [serializers.py]: it creates the order "atomically with its line
    items", with a new identifier, from the validated data; a key the
    validated data lack takes the column's default. *)
Definition new_order (user : User) (now : Z) (vd : ValidatedData)
  (id : OrderId) : Order :=
  {| o_id := id; o_user := user_id user; o_items := vd_items vd;
     o_total_amount := vd_total_amount vd;
     o_status := status_default;
     o_payment_method := vd_payment_method vd;
     o_payment_status :=
       match vd_payment_status vd with
       | Some s => s
       | None => payment_status_default
       end;
     o_payment_intent_id := vd_payment_intent_id vd;
     o_created_at := now |}.

Definition serializer_save (user : User) (now : Z) (vd : ValidatedData)
  : M Order :=
  fun w =>
    let order := new_order user now vd (next_id w) in
    (order,
     {| orders := orders w ++ [order];
        stock := take_stock (vd_items vd) (stock w);
        stripe_calls := stripe_calls w;
        emails := emails w;
        next_id := next_id w + 1 |}).

(** Lines 78-92 of [OrderCreateView.create]: save, queue the e-mail,
    answer 201. *)
Definition create_order (user : User) (now : Z) (vd : ValidatedData)
  : M Response :=
  order <- serializer_save user now vd ;;
  send_email (EmailQueued (o_id order)) ;;
  ret {| status_code := HTTP_201_CREATED;
         data := OrderCreated (o_id order) (o_payment_status order) |}.

(** [OrderCreateView.create].  Every [return] lies inside
    [transaction.atomic()] and leaves it normally, so nothing is rolled
    back. *)
Definition create (stripe : Stripe) (user : User) (now : Z)
  (d : RequestData) : M Response :=
  match is_valid d with
  | None => ret {| status_code := HTTP_400_BAD_REQUEST;
                   data := ValidationErrors |}
  | Some validated_data =>
    let payment_method := rd_payment_method d in
    let payment_intent_id := rd_payment_intent_id d in
    if py_eq payment_method "stripe" then
      match payment_intent_id with
      | Some pid =>
        if negb (truthy payment_intent_id) then
          ret {| status_code := HTTP_400_BAD_REQUEST;
                 data := Error "Payment Intent ID is required for Stripe payments" |}
        else
          r <- stripe_call (CallRetrieve pid)
                 (PaymentIntent_retrieve stripe pid) ;;
          match r with
          | Returned payment_intent =>
            if negb (String.eqb (pi_status payment_intent) "succeeded") then
              ret {| status_code := HTTP_400_BAD_REQUEST;
                     data := Error "Payment not completed" |}
            else
              let stripe_amount := cents_to_decimal (pi_amount payment_intent) in
              create_order user now
                (set_payment_status "paid"
                   (set_payment_intent_id payment_intent_id validated_data))
          | StripeError e =>
            ret {| status_code := HTTP_400_BAD_REQUEST;
                   data := Error ("Payment verification failed: " ++ e) |}
          end
      | None =>
        ret {| status_code := HTTP_400_BAD_REQUEST;
               data := Error "Payment Intent ID is required for Stripe payments" |}
      end
    else if py_eq payment_method "mock" then
      create_order user now (set_payment_status "paid" validated_data)
    else
      create_order user now validated_data
  end.

(** ** Cancellation *)

(** The loop of lines 168-170: each line item loads its product, adds the
    quantity to the stock and saves the product. *)
Fixpoint restore_stock (l : list OrderItem) (f : ProductId -> Z)
  : ProductId -> Z :=
  match l with
  | [] => f
  | item :: l' =>
    restore_stock l' (add_stock (item_product item) (item_quantity item) f)
  end.

(** Lines 167-175 of [cancel_order]. *)
Definition cancel_finish (order : Order) : M Response :=
  (fun w => (tt, set_stock (restore_stock (o_items order) (stock w)) w)) ;;
  save (with_status "cancelled" order) ;;
  ret {| status_code := HTTP_200_OK;
         data := Message "Order cancelled successfully" |}.

(** The guard of line 145. *)
Definition refund_due (order : Order) : bool :=
  py_eq (o_payment_method order) "stripe"
  && truthy (o_payment_intent_id order)
  && String.eqb (o_payment_status order) "paid".

(** The filter [id=order_id, user=request.user]. *)
Definition order_of (user : User) (order_id : OrderId) (o : Order) : bool :=
  (o_id o =? order_id) && (o_user o =? user_id user).

Definition cancel_order (stripe : Stripe) (user : User) (order_id : OrderId)
  : M Response :=
  found <- get_object (order_of user order_id) ;;
  match found with
  | None => ret {| status_code := HTTP_404_NOT_FOUND; data := NotFound |}
  | Some order =>
    if negb (py_in (o_status order) ["pending"; "processing"]) then
      ret {| status_code := HTTP_400_BAD_REQUEST;
             data := Error "Order cannot be cancelled" |}
    else if refund_due order then
      match o_payment_intent_id order with
      | Some pid =>
        r <- stripe_call (CallRefund pid) (Refund_create stripe pid) ;;
        match r with
        | Returned refund =>
          if String.eqb (refund_status refund) "succeeded" then
            cancel_finish (with_payment_status "refunded" order)
          else
            ret {| status_code := HTTP_400_BAD_REQUEST;
                   data := Error "Refund failed. Please contact support." |}
        | StripeError e =>
          ret {| status_code := HTTP_400_BAD_REQUEST;
                 data := Error ("Refund failed: " ++ e) |}
        end
      | None => cancel_finish order
      end
    else cancel_finish order
  end.

(** ** Administrative status update *)

Definition admin_update_order_status (user : User) (order_id : OrderId)
  (new_status : option string) : M Response :=
  if negb (is_admin user) then
    ret {| status_code := HTTP_403_FORBIDDEN;
           data := Error "Permission denied" |}
  else
    found <- get_object (fun o => o_id o =? order_id) ;;
    match found with
    | None => ret {| status_code := HTTP_404_NOT_FOUND; data := NotFound |}
    | Some order =>
      match new_status with
      | Some s =>
        if negb (py_in s STATUS_CHOICES) then
          ret {| status_code := HTTP_400_BAD_REQUEST;
                 data := Error "Invalid status" |}
        else
          save (with_status s order) ;;
          ret {| status_code := HTTP_200_OK;
                 data := OrderData (with_status s order) |}
      | None =>
        ret {| status_code := HTTP_400_BAD_REQUEST;
               data := Error "Invalid status" |}
      end
    end.

(** ** Webhook reconciliation *)

(** [Order.objects.get(payment_intent_id=id)] *)
Definition has_intent (id : string) (o : Order) : bool :=
  py_eq (o_payment_intent_id o) id.

(** [stripe_webhook].  [caller] is the authenticated user of the request,
    [None] when it carries no credentials: the view is behind
    [permission_classes([IsAuthenticated])] like the others, and such a
    request is refused with 403 before the body runs.  [secret] is the
    setting [STRIPE_WEBHOOK_SECRET] ([None] when it is not set), [payload]
    the request body and [sig_header] the [Stripe-Signature] header.  Only
    [Order.DoesNotExist] is caught around the lookups: with several
    matching rows the exception leaves the view and the request ends in a
    500. *)
Definition stripe_webhook (stripe : Stripe) (caller : option User)
  (secret : option string) (payload : string) (sig_header : option string)
  : M Response :=
  match caller with
  | None =>
    ret {| status_code := HTTP_403_FORBIDDEN; data := NotAuthenticated |}
  | Some _ =>
    match secret with
    | Some endpoint_secret =>
      if negb (truthy secret) then
        ret {| status_code := 400;
               data := Error "Webhook secret not configured" |}
      else
        match Webhook_construct_event stripe payload sig_header
                endpoint_secret with
        | ValueError =>
          ret {| status_code := 400; data := Error "Invalid payload" |}
        | SignatureVerificationError =>
          ret {| status_code := 400; data := Error "Invalid signature" |}
        | Event event =>
          if String.eqb (event_type event) "payment_intent.succeeded" then
            got <- objects_get (has_intent (event_object_id event)) ;;
            match got with
            | Found order =>
              save (with_payment_status "paid" order) ;;
              send_email (EmailSent (o_id order)) ;;
              ret {| status_code := HTTP_200_OK; data := StatusSuccess |}
            | DoesNotExist =>
              ret {| status_code := HTTP_200_OK; data := StatusSuccess |}
            | MultipleObjectsReturned =>
              ret {| status_code := HTTP_500_INTERNAL_SERVER_ERROR;
                     data := ServerError |}
            end
          else if String.eqb (event_type event)
                    "payment_intent.payment_failed" then
            got <- objects_get (has_intent (event_object_id event)) ;;
            match got with
            | Found order =>
              save (with_payment_status "failed" order) ;;
              ret {| status_code := HTTP_200_OK; data := StatusSuccess |}
            | DoesNotExist =>
              ret {| status_code := HTTP_200_OK; data := StatusSuccess |}
            | MultipleObjectsReturned =>
              ret {| status_code := HTTP_500_INTERNAL_SERVER_ERROR;
                     data := ServerError |}
            end
          else
            ret {| status_code := HTTP_200_OK; data := StatusSuccess |}
        end
    | None =>
      ret {| status_code := 400;
             data := Error "Webhook secret not configured" |}
    end
  end.

End Views.

(** ** The dashboard *)

(** [timedelta(days=n)], in microseconds like the timestamps. *)
Definition days (n : Z) : Z := n * 86400000000.

(** [QuerySet.count()] *)
Definition count (p : Order -> bool) (l : list Order) : Z :=
  Z.of_nat (List.length (filter p l)).

(** [Order.objects.filter(created_at__gte=now - timedelta(days=7)).count()] *)
Definition this_week_orders (now : Z) (l : list Order) : Z :=
  count (fun o => now - days 7 <=? o_created_at o) l.

(** [Order.objects.filter(created_at__gte=now - timedelta(days=14),
                          created_at__lt=now - timedelta(days=7)).count()] *)
Definition last_week_orders (now : Z) (l : list Order) : Z :=
  count (fun o => (now - days 14 <=? o_created_at o)
                  && (o_created_at o <? now - days 7)) l.

(** [aggregate(total=Sum('total_amount'))['total'] or 0] over the paid
    orders. *)
Definition total_revenue (l : list Order) : Z :=
  fold_right Z.add 0
    (map o_total_amount
       (filter (fun o => String.eqb (o_payment_status o) "paid") l)).

Section Dashboard.

(** Python's [float] and the three operations the growth figure goes
    through: [int / int], [float * int] and [round(float, 2)].  The views
    are stated for every implementation of them. *)
Variable float : Type.
Variable truediv : Z -> Z -> float.
Variable mul_int : float -> Z -> float.
Variable round2 : float -> float.

(** A Python number: [growth] is the [int] 0 or 100, or a [float]. *)
Inductive Number : Type :=
| PyInt (z : Z)
| PyFloat (x : float).

(** [round(x, 2)]: an [int] is returned as it is. *)
Definition py_round2 (x : Number) : Number :=
  match x with
  | PyInt z => PyInt z
  | PyFloat f => PyFloat (round2 f)
  end.

(** Lines 310-314 of [admin_dashboard_data]. *)
Definition growth (this_week last_week : Z) : Number :=
  if negb (last_week =? 0) then
    PyFloat (mul_int (truediv (this_week - last_week) last_week) 100)
  else if 0 <? this_week then
    PyInt 100
  else
    PyInt 0.

Record DashboardData := {
  dd_total_orders : Z;
  dd_total_revenue : Z;
  dd_pending_orders : Z;
  dd_growth : Number
}.

Inductive DashboardResponse : Type :=
| PermissionDenied
| Dashboard (d : DashboardData).

(** [admin_dashboard_data]; it reads the order table and changes nothing.
    Amounts are whole minor units, so [round(total_revenue, 2)] is the sum
    itself.  The serialised [recent_orders] are left out of the response. *)
Definition admin_dashboard_data (user : User) (now : Z) (w : World)
  : DashboardResponse :=
  if negb (is_admin user) then PermissionDenied
  else
    Dashboard
      {| dd_total_orders := count (fun _ => true) (orders w);
         dd_total_revenue := total_revenue (orders w);
         dd_pending_orders :=
           count (fun o => String.eqb (o_status o) "pending") (orders w);
         dd_growth :=
           py_round2 (growth (this_week_orders now (orders w))
                             (last_week_orders now (orders w))) |}.

End Dashboard.

Arguments PyInt {float} z.
Arguments PyFloat {float} x.
Arguments PermissionDenied {float}.
Arguments Dashboard {float} d.

(** ** Properties of the order table *)

(** What cancelling an order with line items [l] gives back to product [p]:
    the quantities of the line items that reference [p]. *)
Fixpoint restored (p : ProductId) (l : list OrderItem) : Z :=
  match l with
  | [] => 0
  | item :: l' =>
    (if item_product item =? p then item_quantity item else 0) + restored p l'
  end.

(** The invariant of the data model: a paid order of the hosted-gateway
    method carries an external payment reference. *)
Definition paid_has_reference (o : Order) : Prop :=
  o_payment_status o = "paid" ->
  o_payment_method o = Some "stripe" ->
  o_payment_intent_id o <> None.

Definition all_paid_have_reference (w : World) : Prop :=
  Forall paid_has_reference (orders w).

(** ** Sample data *)

Module Examples.

Definition alice : User := {| user_id := 1; is_admin := false |}.
Definition root : User := {| user_id := 2; is_admin := true |}.

Definition STATUS_CHOICES : list string :=
  ["pending"; "processing"; "shipped"; "delivered"; "cancelled"].

Definition any_cart (_ : list OrderItem) : bool := true.

Definition cart : list OrderItem :=
  [ {| item_product := 7; item_quantity := 2; item_price := 2500 |} ].

(** A gateway on which the intent has succeeded, for [amount] minor units,
    and refunds succeed. *)
Definition stripe_paid (amount : Z) : Stripe :=
  {| PaymentIntent_retrieve := fun _ =>
       Returned {| pi_status := "succeeded"; pi_amount := amount |};
     Refund_create := fun _ => Returned {| refund_status := "succeeded" |};
     Webhook_construct_event := fun _ _ _ =>
       Event {| event_type := "payment_intent.succeeded";
                event_object_id := "pi_unknown" |} |}.

(** A gateway on which the intent still waits for a payment method and
    refunds stay pending. *)
Definition stripe_unpaid : Stripe :=
  {| PaymentIntent_retrieve := fun _ =>
       Returned {| pi_status := "requires_payment_method";
                   pi_amount := 5000 |};
     Refund_create := fun _ => Returned {| refund_status := "pending" |};
     Webhook_construct_event := fun _ _ _ => SignatureVerificationError |}.

(** A gateway that answers every call with an error. *)
Definition stripe_down : Stripe :=
  {| PaymentIntent_retrieve := fun _ => StripeError "api connection";
     Refund_create := fun _ => StripeError "api connection";
     Webhook_construct_event := fun _ _ _ => ValueError |}.

Definition request (method : string) (intent : option string)
  : RequestData :=
  {| rd_payment_method := Some method; rd_payment_intent_id := intent;
     rd_items := cart; rd_total_amount := 5000 |}.

(** What the serializer makes of [request method intent]. *)
Definition validated (method : string) : ValidatedData :=
  {| vd_items := cart; vd_total_amount := 5000;
     vd_payment_method := Some method;
     vd_payment_intent_id := None; vd_payment_status := None |}.

Definition order (id : OrderId) (status method payment_status : string)
  (intent : option string) : Order :=
  {| o_id := id; o_user := 1; o_items := cart; o_total_amount := 5000;
     o_status := status; o_payment_method := Some method;
     o_payment_status := payment_status; o_payment_intent_id := intent;
     o_created_at := 0 |}.

Definition world (l : list Order) : World :=
  {| orders := l; stock := fun _ => 10; stripe_calls := [];
     emails := []; next_id := 100 |}.

(** Exact rational arithmetic in the place of [float], to run the
    dashboard on sample data. *)
Definition q_truediv (a b : Z) : Q := (inject_Z a / inject_Z b)%Q.
Definition q_mul_int (x : Q) (n : Z) : Q := (x * inject_Z n)%Q.
Definition q_round2 (x : Q) : Q :=
  (inject_Z (Qfloor (x * 100 + (1 # 2))) / 100)%Q.

End Examples.

(** ** Listing, retrieval and the administrative list *)

(** The answer of a view that reads: a value, or a status with a message. *)
Inductive Reply (A : Type) : Type :=
| Replied (a : A)
| Refused (status : Z) (error : string).
Arguments Replied {A} a.
Arguments Refused {A} status error.

(** [get_queryset] of [OrderListView] and [OrderDetailView]:
    [Order.objects.filter(user=self.request.user)]. *)
Definition get_queryset (user : User) (w : World) : list Order :=
  filter (fun o => o_user o =? user_id user) (orders w).

(** [OrderDetailView]: the generic retrieve view looks the primary key up in
    the queryset and answers 404 when it is not there. *)
Definition order_detail (user : User) (pk : OrderId) (w : World) : Response :=
  match find (fun o => o_id o =? pk) (get_queryset user w) with
  | Some order => {| status_code := HTTP_200_OK; data := OrderData order |}
  | None => {| status_code := HTTP_404_NOT_FOUND; data := NotFound |}
  end.

(** [admin_orders] *)
Definition admin_orders (user : User) (w : World) : Reply (list Order) :=
  if negb (is_admin user) then Refused HTTP_403_FORBIDDEN "Permission denied"
  else Replied (orders w).

(** ** Creating a payment intent *)

Unset Elimination Schemes.

(** A JSON value of [request.data].  Numbers with a fraction are left out. *)
Inductive Json : Type :=
| JNull
| JBool (b : bool)
| JInt (z : Z)
| JString (s : string)
| JArray (l : list Json)
| JObject (l : list (string * Json)).

Set Elimination Schemes.

(** [data.get(key)] on the parsed body; [None] when the key is missing. *)
Fixpoint dict_get (key : string) (d : list (string * Json)) : option Json :=
  match d with
  | [] => None
  | (k, v) :: d' => if String.eqb k key then Some v else dict_get key d'
  end.

(** [data.get(key, default)] *)
Definition dict_get_default (key : string) (default : Json)
  (d : list (string * Json)) : Json :=
  match dict_get key d with
  | Some v => v
  | None => default
  end.

(** [not v] *)
Definition py_not (v : Json) : bool :=
  match v with
  | JNull => true
  | JBool b => negb b
  | JInt z => z =? 0
  | JString s => String.eqb s ""
  | JArray l => match l with [] => true | _ :: _ => false end
  | JObject l => match l with [] => true | _ :: _ => false end
  end.

(** [v <= 0]; [None] is the [TypeError] of comparing a non-number with an
    [int].  A [bool] is an [int]. *)
Definition py_le_zero (v : Json) : option bool :=
  match v with
  | JBool b => Some (negb b)
  | JInt z => Some (z <=? 0)
  | JNull | JString _ | JArray _ | JObject _ => None
  end.

(** [int(v)] for the values that reach it; [None] is an exception. *)
Definition py_int (v : Json) : option Z :=
  match v with
  | JBool b => Some (if b then 1 else 0)
  | JInt z => Some z
  | JNull | JString _ | JArray _ | JObject _ => None
  end.

(** What [stripe.PaymentIntent.create] returns, as far as the view reads
    it. *)
Record CreatedIntent := { client_secret : string; intent_id : string }.

(** [stripe.PaymentIntent.create(amount=, currency=, description=,
    metadata={user_id, user_email})] *)
Inductive IntentCall : Type :=
| CallCreate (amount : Z) (currency description : Json) (user : User).

(** [create_payment_intent].  It touches no table; the result is the answer
    and the calls made to the gateway.  [create_intent] is the gateway's
    answer to the call.  The whole body is inside [try]: a [StripeError] gives
    400 with its message, any other exception 500. *)
Definition create_payment_intent
  (create_intent : Z -> Json -> Json -> User -> StripeResult CreatedIntent)
  (user : User) (d : list (string * Json))
  : Reply CreatedIntent * list IntentCall :=
  let amount := dict_get_default "amount" JNull d in
  let currency := dict_get_default "currency" (JString "usd") d in
  let description :=
    dict_get_default "description" (JString "E-commerce order") d in
  if py_not amount then (Refused HTTP_400_BAD_REQUEST "Invalid amount", [])
  else
    match py_le_zero amount with
    | None =>
      (Refused HTTP_500_INTERNAL_SERVER_ERROR "Internal server error", [])
    | Some true => (Refused HTTP_400_BAD_REQUEST "Invalid amount", [])
    | Some false =>
      match py_int amount with
      | None =>
        (Refused HTTP_500_INTERNAL_SERVER_ERROR "Internal server error", [])
      | Some n =>
        match create_intent n currency description user with
        | Returned intent =>
          (Replied intent, [CallCreate n currency description user])
        | StripeError e =>
          (Refused HTTP_400_BAD_REQUEST e,
           [CallCreate n currency description user])
        end
      end
    end.

(** The primary key: no two rows of the order table share an id. *)
Definition unique_ids (w : World) : Prop := NoDup (map o_id (orders w)).

(** * Theorems *)

Unset Implicit Arguments.

(** Decide the comparisons of string literals in the goal. *)
Ltac eval_eqb :=
  repeat match goal with
         | |- context [String.eqb ?a ?b] =>
           let v := eval vm_compute in (String.eqb a b) in
           progress change (String.eqb a b) with v
         end;
  cbv iota.

(** ** Order creation *)

Section CreateProperties.

Variable status_default : string.
Variable payment_status_default : string.
Variable cart_valid : list OrderItem -> bool.

Local Abbreviation create_view :=
  (create status_default payment_status_default cart_valid).
Local Abbreviation saved := (new_order status_default payment_status_default).

(** What the tail of the view does, in one equation. *)
Lemma create_order_run (user : User) (now : Z) (vd : ValidatedData)
  (w : World) :
  create_order status_default payment_status_default user now vd w =
  ({| status_code := HTTP_201_CREATED;
      data := OrderCreated (next_id w)
                (o_payment_status (saved user now vd (next_id w))) |},
   {| orders := orders w ++ [saved user now vd (next_id w)];
      stock := take_stock (vd_items vd) (stock w);
      stripe_calls := stripe_calls w;
      emails := emails w ++ [EmailQueued (next_id w)];
      next_id := next_id w + 1 |}).
Proof. reflexivity. Qed.

(** A request the serializer rejects is answered 400 and changes nothing. *)
Lemma create_invalid (stripe : Stripe) (user : User) (now : Z)
  (d : RequestData) (w : World) :
  is_valid cart_valid d = None ->
  create_view stripe user now d w =
  ({| status_code := HTTP_400_BAD_REQUEST; data := ValidationErrors |}, w).
Proof.
  intros Hv. unfold create. rewrite Hv. reflexivity.
Qed.

(** C2: a creation request of method 'stripe' whose payment intent has a
    status other than 'succeeded' is answered with an error, and neither an
    order row nor line items are persisted: the order table, the stock and
    the queue of e-mails are as before. *)
Theorem create_stripe_not_succeeded (stripe : Stripe) (user : User)
  (now : Z) (d : RequestData) (pid : string) (intent : PaymentIntent)
  (w : World) :
  rd_payment_method d = Some "stripe" ->
  rd_payment_intent_id d = Some pid ->
  PaymentIntent_retrieve stripe pid = Returned intent ->
  pi_status intent <> "succeeded" ->
  let (response, w') := create_view stripe user now d w in
  status_code response = HTTP_400_BAD_REQUEST /\
  orders w' = orders w /\ stock w' = stock w /\ emails w' = emails w /\
  next_id w' = next_id w.
Proof.
  intros Hm Hp Hr Hs. unfold create.
  destruct (is_valid cart_valid d) as [vd|]; [|cbn; auto].
  rewrite Hm, Hp. cbn [py_eq]. rewrite String.eqb_refl.
  destruct (negb (truthy (Some pid))); [cbn; auto|].
  unfold bind, stripe_call. rewrite Hr.
  apply String.eqb_neq in Hs. rewrite Hs. cbn. auto.
Qed.

(** C9: a creation request of method 'mock' that passes validation persists
    one order, whose payment status is 'paid', answers 201 with that order's
    id and status, and makes no call to the payment gateway. *)
Theorem create_mock_paid (stripe : Stripe) (user : User) (now : Z)
  (d : RequestData) (vd : ValidatedData) (w : World) :
  rd_payment_method d = Some "mock" ->
  is_valid cart_valid d = Some vd ->
  exists order : Order,
    create_view stripe user now d w =
    ({| status_code := HTTP_201_CREATED;
        data := OrderCreated (o_id order) "paid" |},
     {| orders := orders w ++ [order];
        stock := take_stock (vd_items vd) (stock w);
        stripe_calls := stripe_calls w;
        emails := emails w ++ [EmailQueued (o_id order)];
        next_id := next_id w + 1 |}) /\
    o_payment_status order = "paid" /\
    o_payment_method order = Some "mock".
Proof.
  intros Hm Hv.
  exists (saved user now (set_payment_status "paid" vd) (next_id w)).
  unfold create. rewrite Hv, Hm. cbn [py_eq].
  replace (String.eqb "mock" "stripe") with false by reflexivity.
  rewrite String.eqb_refl, create_order_run.
  repeat split.
  unfold is_valid in Hv. destruct (cart_valid (rd_items d)); [|discriminate].
  injection Hv as <-. exact Hm.
Qed.

(** C10: a creation request whose method is neither 'stripe' nor 'mock' and
    that passes validation makes no call to the payment gateway, persists
    one order whose payment status is the one the serializer supplied, or
    the column's default, and answers 201 with the new id and that payment
    status. *)
Theorem create_other_method (stripe : Stripe) (user : User) (now : Z)
  (d : RequestData) (vd : ValidatedData) (w : World) :
  rd_payment_method d <> Some "stripe" ->
  rd_payment_method d <> Some "mock" ->
  is_valid cart_valid d = Some vd ->
  exists order : Order,
    create_view stripe user now d w =
    ({| status_code := HTTP_201_CREATED;
        data := OrderCreated (o_id order) (o_payment_status order) |},
     {| orders := orders w ++ [order];
        stock := take_stock (vd_items vd) (stock w);
        stripe_calls := stripe_calls w;
        emails := emails w ++ [EmailQueued (o_id order)];
        next_id := next_id w + 1 |}) /\
    o_id order = next_id w /\
    o_payment_status order =
      match vd_payment_status vd with
      | Some s => s
      | None => payment_status_default
      end.
Proof.
  intros Hs Hm Hv. exists (saved user now vd (next_id w)).
  unfold create. rewrite Hv.
  assert (py_eq (rd_payment_method d) "stripe" = false) as ->.
  { destruct (rd_payment_method d) as [m|]; [|reflexivity]. cbn.
    apply String.eqb_neq. congruence. }
  assert (py_eq (rd_payment_method d) "mock" = false) as ->.
  { destruct (rd_payment_method d) as [m|]; [|reflexivity]. cbn.
    apply String.eqb_neq. congruence. }
  rewrite create_order_run. repeat split.
Qed.

(** On the 'stripe' path a succeeded intent is all the view asks for: the
    amount the intent was paid for is read and never compared with the
    order's total. *)
Lemma create_stripe_succeeded (stripe : Stripe) (user : User) (now : Z)
  (d : RequestData) (vd : ValidatedData) (pid : string) (amount : Z)
  (w : World) :
  rd_payment_method d = Some "stripe" ->
  rd_payment_intent_id d = Some pid -> pid <> "" ->
  is_valid cart_valid d = Some vd ->
  PaymentIntent_retrieve stripe pid =
    Returned {| pi_status := "succeeded"; pi_amount := amount |} ->
  let paid := set_payment_status "paid"
                (set_payment_intent_id (Some pid) vd) in
  create_view stripe user now d w =
  ({| status_code := HTTP_201_CREATED;
      data := OrderCreated (next_id w) "paid" |},
   {| orders := orders w ++ [saved user now paid (next_id w)];
      stock := take_stock (vd_items vd) (stock w);
      stripe_calls := stripe_calls w ++ [CallRetrieve pid];
      emails := emails w ++ [EmailQueued (next_id w)];
      next_id := next_id w + 1 |}).
Proof.
  intros Hm Hp Hne Hv Hr. unfold create.
  rewrite Hv, Hm, Hp. cbn [py_eq truthy]. rewrite String.eqb_refl.
  apply String.eqb_neq in Hne. rewrite Hne. cbn [negb].
  unfold bind at 1. unfold stripe_call. rewrite Hr. cbn [pi_status].
  rewrite String.eqb_refl. cbn [negb]. rewrite create_order_run.
  reflexivity.
Qed.

End CreateProperties.

(** C2 at work: the intent of the request still waits for a payment method. *)
Lemma create_stripe_not_succeeded_witness :
  let (response, w') :=
    create "pending" "unpaid" Examples.any_cart Examples.stripe_unpaid
      Examples.alice 0 (Examples.request "stripe" (Some "pi_1"))
      (Examples.world []) in
  status_code response = HTTP_400_BAD_REQUEST /\
  orders w' = [] /\ stock w' = stock (Examples.world []) /\ emails w' = [] /\
  next_id w' = 100.
Proof.
  apply (create_stripe_not_succeeded "pending" "unpaid" Examples.any_cart
           Examples.stripe_unpaid Examples.alice 0
           (Examples.request "stripe" (Some "pi_1")) "pi_1"
           {| pi_status := "requires_payment_method"; pi_amount := 5000 |}
           (Examples.world []));
    [reflexivity | reflexivity | reflexivity | discriminate].
Defined.

(** C9 at work. *)
Lemma create_mock_paid_witness :
  exists order : Order,
    create "pending" "unpaid" Examples.any_cart Examples.stripe_down
      Examples.alice 0 (Examples.request "mock" None) (Examples.world []) =
    ({| status_code := HTTP_201_CREATED;
        data := OrderCreated (o_id order) "paid" |},
     {| orders := [order];
        stock := take_stock Examples.cart (fun _ => 10);
        stripe_calls := [];
        emails := [EmailQueued (o_id order)];
        next_id := 101 |}) /\
    o_payment_status order = "paid" /\
    o_payment_method order = Some "mock".
Proof.
  exact (create_mock_paid "pending" "unpaid" Examples.any_cart
           Examples.stripe_down Examples.alice 0
           (Examples.request "mock" None) (Examples.validated "mock")
           (Examples.world []) eq_refl eq_refl).
Defined.

(** C10 at work: cash on delivery. *)
Lemma create_other_method_witness :
  exists order : Order,
    create "pending" "unpaid" Examples.any_cart Examples.stripe_down
      Examples.alice 0 (Examples.request "cod" None) (Examples.world []) =
    ({| status_code := HTTP_201_CREATED;
        data := OrderCreated (o_id order) (o_payment_status order) |},
     {| orders := [order];
        stock := take_stock Examples.cart (fun _ => 10);
        stripe_calls := [];
        emails := [EmailQueued (o_id order)];
        next_id := 101 |}) /\
    o_id order = 100 /\
    o_payment_status order = "unpaid".
Proof.
  apply (create_other_method "pending" "unpaid" Examples.any_cart
           Examples.stripe_down Examples.alice 0
           (Examples.request "cod" None) (Examples.validated "cod")
           (Examples.world []));
    [discriminate | discriminate | reflexivity].
Defined.

(** C1: the view does not reject a 'stripe' request whose payment intent
    reports an amount different from the order's total.  The order totals
    5000 minor units, the intent succeeded for 100: the request is answered
    201 and the order is persisted as paid. *)
Theorem create_stripe_amount_mismatch_accepted :
  let d := Examples.request "stripe" (Some "pi_1") in
  let stripe := Examples.stripe_paid 100 in
  rd_total_amount d = 5000 /\
  PaymentIntent_retrieve stripe "pi_1" =
    Returned {| pi_status := "succeeded"; pi_amount := 100 |} /\
  create "pending" "unpaid" Examples.any_cart stripe Examples.alice 0 d
    (Examples.world []) =
  ({| status_code := HTTP_201_CREATED; data := OrderCreated 100 "paid" |},
   {| orders := [ {| o_id := 100; o_user := 1; o_items := Examples.cart;
                     o_total_amount := 5000; o_status := "pending";
                     o_payment_method := Some "stripe";
                     o_payment_status := "paid";
                     o_payment_intent_id := Some "pi_1";
                     o_created_at := 0 |} ];
      stock := take_stock Examples.cart (fun _ => 10);
      stripe_calls := [CallRetrieve "pi_1"];
      emails := [EmailQueued 100];
      next_id := 101 |}).
Proof. repeat split. Qed.

(** ** Cancellation *)

Section CancelProperties.

Variable stripe : Stripe.
Variable user : User.
Variable order_id : OrderId.

(** The loop over the line items adds to each product what [restored]
    counts for it. *)
Lemma restore_stock_restored (l : list OrderItem) :
  forall (f : ProductId -> Z) (p : ProductId),
    restore_stock l f p = f p + restored p l.
Proof.
  induction l as [|item l IH]; intros f p; cbn [restore_stock restored].
  - lia.
  - rewrite IH. unfold add_stock. rewrite (Z.eqb_sym (item_product item) p).
    destruct (p =? item_product item) eqn:E.
    + apply Z.eqb_eq in E. subst p. lia.
    + lia.
Qed.

(** The tail of the view, in one equation. *)
Lemma cancel_finish_run (order : Order) (w : World) :
  cancel_finish order w =
  ({| status_code := HTTP_200_OK;
      data := Message "Order cancelled successfully" |},
   {| orders := update_row (with_status "cancelled" order) (orders w);
      stock := restore_stock (o_items order) (stock w);
      stripe_calls := stripe_calls w;
      emails := emails w;
      next_id := next_id w |}).
Proof. reflexivity. Qed.

(** Saving the row the lookup found makes the lookup find the saved row. *)
Lemma find_update_row (o o' : Order) (l : list Order) :
  find (order_of user order_id) l = Some o ->
  o_id o' = o_id o -> o_user o' = o_user o ->
  find (order_of user order_id) (update_row o' l) = Some o'.
Proof.
  intros Hf Hid Hu.
  assert (order_of user order_id o = true) as Ho
    by (apply find_some in Hf; tauto).
  assert (order_of user order_id o' = true) as Ho'
    by (unfold order_of in *; rewrite Hid, Hu; exact Ho).
  induction l as [|r l IH]; cbn in Hf |- *; [discriminate|].
  destruct (order_of user order_id r) eqn:Er.
  - injection Hf as ->. rewrite Hid, Z.eqb_refl, Ho'. reflexivity.
  - destruct (o_id r =? o_id o').
    + rewrite Ho'. reflexivity.
    + rewrite Er. auto.
Qed.

(** C6: cancelling an order whose status is neither 'pending' nor
    'processing' is answered 400 and changes nothing: the world after the
    request, with its order table, its stock and its log of gateway calls,
    is the world before it. *)
Theorem cancel_not_cancellable (order : Order) (w : World) :
  find (order_of user order_id) (orders w) = Some order ->
  o_status order <> "pending" ->
  o_status order <> "processing" ->
  cancel_order stripe user order_id w =
  ({| status_code := HTTP_400_BAD_REQUEST;
      data := Error "Order cannot be cancelled" |}, w).
Proof.
  intros Hf Hp Hq. unfold cancel_order, bind, get_object. rewrite Hf.
  cbn [py_in]. apply String.eqb_neq in Hp, Hq. rewrite Hp, Hq.
  reflexivity.
Qed.

(** With a payment intent id that is not empty the guard of line 145 lets a
    paid 'stripe' order through, so a refund that does not succeed always
    ends the request in 400 with the order table and the stock as they
    were. *)
Lemma cancel_refund_failed (order : Order) (pid : string) (w : World) :
  find (order_of user order_id) (orders w) = Some order ->
  o_payment_method order = Some "stripe" ->
  o_payment_status order = "paid" ->
  o_payment_intent_id order = Some pid ->
  pid <> "" ->
  (forall refund, Refund_create stripe pid = Returned refund ->
                  refund_status refund <> "succeeded") ->
  let (response, w') := cancel_order stripe user order_id w in
  status_code response = HTTP_400_BAD_REQUEST /\
  orders w' = orders w /\ stock w' = stock w.
Proof.
  intros Hf Hm Hs Hi Hne Hr. unfold cancel_order, bind, get_object.
  rewrite Hf.
  destruct (negb (py_in (o_status order) ["pending"; "processing"]));
    [cbn; auto|].
  unfold refund_due. rewrite Hm, Hs, Hi. cbn [py_eq truthy].
  apply String.eqb_neq in Hne. rewrite Hne. cbn.
  destruct (Refund_create stripe pid) as [refund|e] eqn:Ec; [|cbn; auto].
  specialize (Hr refund eq_refl). apply String.eqb_neq in Hr.
  rewrite Hr. cbn. auto.
Qed.



(** C5: cancelling an order in status 'pending' or 'processing' that needs
    no refund, or whose refund reports 'succeeded', is answered with the
    success message, adds to the stock of every product the quantities of
    the line items that reference it, and leaves the order with status
    'cancelled' (and its line items as they were). *)
Theorem cancel_restores_stock (order : Order) (w : World) :
  find (order_of user order_id) (orders w) = Some order ->
  o_status order = "pending" \/ o_status order = "processing" ->
  refund_due order = false \/
  (exists pid refund,
      o_payment_intent_id order = Some pid /\
      Refund_create stripe pid = Returned refund /\
      refund_status refund = "succeeded") ->
  let (response, w') := cancel_order stripe user order_id w in
  response = {| status_code := HTTP_200_OK;
                data := Message "Order cancelled successfully" |} /\
  (forall p, stock w' p = stock w p + restored p (o_items order)) /\
  (exists order',
      find (order_of user order_id) (orders w') = Some order' /\
      o_status order' = "cancelled" /\
      o_items order' = o_items order).
Proof.
  intros Hf Hs Hr. unfold cancel_order, bind, get_object. rewrite Hf.
  assert (negb (py_in (o_status order) ["pending"; "processing"]) = false)
    as -> by (destruct Hs as [-> | ->]; reflexivity).
  assert (forall o', o_id o' = o_id order -> o_user o' = o_user order ->
                     o_items o' = o_items order ->
            let (response, w') := cancel_finish o' w in
            response = {| status_code := HTTP_200_OK;
                          data := Message "Order cancelled successfully" |} /\
            (forall p, stock w' p = stock w p + restored p (o_items order)) /\
            (exists order',
                find (order_of user order_id) (orders w') = Some order' /\
                o_status order' = "cancelled" /\
                o_items order' = o_items order)) as Hfin.
  { intros o' Hid Hu Hit. rewrite cancel_finish_run. cbn [stock orders].
    split; [reflexivity|]. split.
    - intros p. rewrite Hit. apply restore_stock_restored.
    - exists (with_status "cancelled" o'). split; [|split].
      + apply find_update_row with (o := order); [exact Hf| exact Hid | exact Hu].
      + reflexivity.
      + exact Hit. }
  destruct (refund_due order) eqn:Ed.
  - destruct Hr as [Hr | (pid & refund & Hi & Hc & Hok)]; [discriminate|].
    rewrite Hi. unfold stripe_call. rewrite Hc, Hok, String.eqb_refl.
    pose proof (Hfin (with_payment_status "refunded" order)
                  eq_refl eq_refl eq_refl) as H.
    rewrite cancel_finish_run in H |- *. cbn [stock orders] in H |- *.
    exact H.
  - apply Hfin; reflexivity.
Qed.

End CancelProperties.

(** C6 at work: a shipped order. *)
Lemma cancel_not_cancellable_witness :
  let w := Examples.world
             [Examples.order 1 "shipped" "stripe" "paid" (Some "pi_1")] in
  cancel_order (Examples.stripe_paid 5000) Examples.alice 1 w =
  ({| status_code := HTTP_400_BAD_REQUEST;
      data := Error "Order cannot be cancelled" |}, w).
Proof.
  apply (cancel_not_cancellable (Examples.stripe_paid 5000) Examples.alice 1
           (Examples.order 1 "shipped" "stripe" "paid" (Some "pi_1")));
    [reflexivity | discriminate | discriminate].
Defined.

(** The guard of line 145 takes an empty payment intent id for an absent
    one: no refund is asked for, the order is cancelled and its stock
    restored. *)
Example cancel_empty_intent_no_refund :
  let order := Examples.order 1 "pending" "stripe" "paid" (Some "") in
  let w := Examples.world [order] in
  o_payment_method order = Some "stripe" /\
  o_payment_status order = "paid" /\
  o_payment_intent_id order <> None /\
  (forall pid refund,
      Refund_create Examples.stripe_down pid <> Returned refund) /\
  let (response, w') := cancel_order Examples.stripe_down Examples.alice 1 w in
  response = {| status_code := HTTP_200_OK;
                data := Message "Order cancelled successfully" |} /\
  map o_status (orders w') = ["cancelled"] /\
  stock w 7 = 10 /\ stock w' 7 = 12 /\
  stripe_calls w' = [].
Proof.
  cbv zeta. repeat split; try discriminate.
Qed.

(** The gateway is down. *)
Lemma cancel_refund_failed_witness :
  let w := Examples.world
             [Examples.order 1 "pending" "stripe" "paid" (Some "pi_1")] in
  let (response, w') := cancel_order Examples.stripe_down Examples.alice 1 w in
  status_code response = HTTP_400_BAD_REQUEST /\
  orders w' = orders w /\ stock w' = stock w.
Proof.
  apply (cancel_refund_failed Examples.stripe_down Examples.alice 1
           (Examples.order 1 "pending" "stripe" "paid" (Some "pi_1")) "pi_1");
    [reflexivity | reflexivity | reflexivity | reflexivity
    | discriminate | discriminate].
Defined.


(** C5 at work: a paid order whose refund succeeds. *)
Lemma cancel_restores_stock_witness :
  let order := Examples.order 1 "processing" "stripe" "paid" (Some "pi_1") in
  let w := Examples.world [order] in
  let (response, w') :=
    cancel_order (Examples.stripe_paid 5000) Examples.alice 1 w in
  response = {| status_code := HTTP_200_OK;
                data := Message "Order cancelled successfully" |} /\
  (forall p, stock w' p = stock w p + restored p (o_items order)) /\
  (exists order',
      find (order_of Examples.alice 1) (orders w') = Some order' /\
      o_status order' = "cancelled" /\
      o_items order' = o_items order).
Proof.
  apply (cancel_restores_stock (Examples.stripe_paid 5000) Examples.alice 1
           (Examples.order 1 "processing" "stripe" "paid" (Some "pi_1")));
    [reflexivity | right; reflexivity |].
  right. exists "pi_1", {| refund_status := "succeeded" |}.
  repeat split.
Defined.

(** ** Webhook reconciliation *)





(** ** The invariant on paid orders *)

Lemma update_row_Forall (P : Order -> Prop) (o : Order) (l : list Order) :
  Forall P l -> P o -> Forall P (update_row o l).
Proof.
  intros Hl Ho. unfold update_row. apply Forall_map.
  apply Forall_impl with (P := P); [|exact Hl].
  intros r Hr. destruct (o_id r =? o_id o); assumption.
Qed.

Lemma paid_has_reference_with_status (s : string) (o : Order) :
  paid_has_reference o -> paid_has_reference (with_status s o).
Proof. intros H. exact H. Qed.

Lemma paid_has_reference_not_paid (s : string) (o : Order) :
  s <> "paid" -> paid_has_reference (with_payment_status s o).
Proof. intros Hs Hp. cbn in Hp. contradiction. Qed.

Lemma find_Forall (P : Order -> Prop) (p : Order -> bool) (l : list Order)
  (o : Order) :
  Forall P l -> find p l = Some o -> P o.
Proof.
  intros Hl Hf. apply find_some in Hf. rewrite Forall_forall in Hl.
  apply Hl. tauto.
Qed.

Lemma py_eq_false (x : option string) (s : string) :
  py_eq x s = false -> x <> Some s.
Proof.
  intros H ->. cbn in H. rewrite String.eqb_refl in H. discriminate.
Qed.

Lemma create_order_invariant (sd psd : string) (user : User) (now : Z)
  (vd : ValidatedData) (w : World) :
  all_paid_have_reference w ->
  (vd_payment_method vd = Some "stripe" -> vd_payment_intent_id vd <> None) ->
  all_paid_have_reference (snd (create_order sd psd user now vd w)).
Proof.
  intros Hw Hvd. rewrite create_order_run. unfold all_paid_have_reference.
  cbn [snd orders]. apply Forall_app. split; [exact Hw|].
  constructor; [|constructor]. intros _ Hm. apply Hvd. exact Hm.
Qed.

Lemma create_invariant (sd psd : string) (cv : list OrderItem -> bool)
  (stripe : Stripe) (user : User) (now : Z) (d : RequestData) (w : World) :
  all_paid_have_reference w ->
  all_paid_have_reference (snd (create sd psd cv stripe user now d w)).
Proof.
  intros Hw. unfold create.
  destruct (is_valid cv d) as [vd|] eqn:Hv; [|exact Hw].
  assert (vd_payment_method vd = rd_payment_method d) as Hm.
  { unfold is_valid in Hv. destruct (cv (rd_items d)); [|discriminate].
    injection Hv as <-. reflexivity. }
  destruct (py_eq (rd_payment_method d) "stripe") eqn:Es.
  - destruct (rd_payment_intent_id d) as [pid|]; [|exact Hw].
    destruct (negb (truthy (Some pid))); [exact Hw|].
    unfold bind, stripe_call.
    destruct (PaymentIntent_retrieve stripe pid) as [intent|e]; [|exact Hw].
    destruct (negb (String.eqb (pi_status intent) "succeeded")); [exact Hw|].
    apply create_order_invariant; [exact Hw|]. discriminate.
  - apply py_eq_false in Es.
    destruct (py_eq (rd_payment_method d) "mock");
      (apply create_order_invariant; [exact Hw|]);
      cbn; rewrite Hm; intros H; contradiction.
Qed.

Lemma cancel_finish_invariant (order : Order) (w : World) :
  all_paid_have_reference w -> paid_has_reference order ->
  all_paid_have_reference (snd (cancel_finish order w)).
Proof.
  intros Hw Ho. rewrite cancel_finish_run. unfold all_paid_have_reference.
  cbn [snd orders]. apply update_row_Forall; [exact Hw|].
  apply paid_has_reference_with_status. exact Ho.
Qed.

Lemma cancel_invariant (stripe : Stripe) (user : User) (order_id : OrderId)
  (w : World) :
  all_paid_have_reference w ->
  all_paid_have_reference (snd (cancel_order stripe user order_id w)).
Proof.
  intros Hw. unfold cancel_order, bind, get_object.
  destruct (find (order_of user order_id) (orders w)) as [order|] eqn:Hf;
    [|exact Hw].
  pose proof (find_Forall _ _ _ _ Hw Hf) as Ho.
  destruct (negb (py_in (o_status order) ["pending"; "processing"]));
    [exact Hw|].
  destruct (refund_due order);
    [|apply cancel_finish_invariant; assumption].
  destruct (o_payment_intent_id order) as [pid|];
    [|apply cancel_finish_invariant; assumption].
  unfold stripe_call.
  destruct (Refund_create stripe pid) as [refund|e]; [|exact Hw].
  destruct (String.eqb (refund_status refund) "succeeded"); [|exact Hw].
  apply cancel_finish_invariant; [exact Hw|].
  apply paid_has_reference_not_paid. discriminate.
Qed.

Lemma admin_update_invariant (choices : list string) (user : User)
  (order_id : OrderId) (new_status : option string) (w : World) :
  all_paid_have_reference w ->
  all_paid_have_reference
    (snd (admin_update_order_status choices user order_id new_status w)).
Proof.
  intros Hw. unfold admin_update_order_status.
  destruct (negb (is_admin user)); [exact Hw|].
  unfold bind, get_object.
  destruct (find (fun o => o_id o =? order_id) (orders w)) as [order|] eqn:Hf;
    [|exact Hw].
  destruct new_status as [s|]; [|exact Hw].
  destruct (negb (py_in s choices)); [exact Hw|].
  cbn. apply update_row_Forall; [exact Hw|].
  apply paid_has_reference_with_status. exact (find_Forall _ _ _ _ Hw Hf).
Qed.

(** The row [Order.objects.get(payment_intent_id=id)] returns carries [id]. *)
Lemma objects_get_found (id : string) (l : list Order) (o : Order) :
  filter (has_intent id) l = [o] -> o_payment_intent_id o = Some id.
Proof.
  intros H.
  assert (In o (filter (has_intent id) l)) as Hin
    by (rewrite H; left; reflexivity).
  apply filter_In in Hin. destruct Hin as [_ Hi].
  unfold has_intent, py_eq in Hi.
  destruct (o_payment_intent_id o) as [x|]; [|discriminate].
  apply String.eqb_eq in Hi. congruence.
Qed.

Lemma webhook_invariant (stripe : Stripe) (caller : option User)
  (secret : option string) (payload : string) (sig_header : option string)
  (w : World) :
  all_paid_have_reference w ->
  all_paid_have_reference
    (snd (stripe_webhook stripe caller secret payload sig_header w)).
Proof.
  intros Hw. unfold stripe_webhook.
  destruct caller as [user|]; [|exact Hw].
  destruct secret as [endpoint_secret|]; [|exact Hw].
  destruct (negb (truthy (Some endpoint_secret))); [exact Hw|].
  destruct (Webhook_construct_event stripe payload sig_header endpoint_secret)
    as [event| |]; [|exact Hw|exact Hw].
  destruct (String.eqb (event_type event) "payment_intent.succeeded").
  - unfold bind, objects_get.
    destruct (filter (has_intent (event_object_id event)) (orders w))
      as [|o [|o' l]] eqn:Hf; [exact Hw| |exact Hw].
    cbn. apply update_row_Forall; [exact Hw|].
    intros _ _. cbn. rewrite (objects_get_found _ _ _ Hf). discriminate.
  - destruct (String.eqb (event_type event) "payment_intent.payment_failed");
      [|exact Hw].
    unfold bind, objects_get.
    destruct (filter (has_intent (event_object_id event)) (orders w))
      as [|o [|o' l]] eqn:Hf; [exact Hw| |exact Hw].
    cbn. apply update_row_Forall; [exact Hw|].
    apply paid_has_reference_not_paid. discriminate.
Qed.

(** C4: every operation preserves the invariant that an order with payment
    status 'paid' and payment method 'stripe' has a non-null payment intent
    id: order creation, cancellation, the administrative status update and
    webhook reconciliation, on every input and for every answer of the
    gateway. *)
Theorem paid_reference_invariant (w : World) :
  all_paid_have_reference w ->
  (forall sd psd cv stripe user now d,
      all_paid_have_reference (snd (create sd psd cv stripe user now d w))) /\
  (forall stripe user order_id,
      all_paid_have_reference (snd (cancel_order stripe user order_id w))) /\
  (forall choices user order_id new_status,
      all_paid_have_reference
        (snd (admin_update_order_status choices user order_id new_status w))) /\
  (forall stripe caller secret payload sig_header,
      all_paid_have_reference
        (snd (stripe_webhook stripe caller secret payload sig_header w))).
Proof.
  intros Hw. repeat split; intros.
  - apply create_invariant. exact Hw.
  - apply cancel_invariant. exact Hw.
  - apply admin_update_invariant. exact Hw.
  - apply webhook_invariant. exact Hw.
Qed.

(** C4 at work: from a world with one unpaid 'stripe' order, each of the four
    operations leads to a world where the invariant holds. *)
Lemma paid_reference_invariant_witness :
  let w := Examples.world
             [Examples.order 1 "pending" "stripe" "unpaid" (Some "pi_1")] in
  all_paid_have_reference w /\
  all_paid_have_reference
    (snd (create "pending" "unpaid" Examples.any_cart
            (Examples.stripe_paid 5000) Examples.alice 0
            (Examples.request "stripe" (Some "pi_2")) w)) /\
  all_paid_have_reference
    (snd (cancel_order (Examples.stripe_paid 5000) Examples.alice 1 w)) /\
  all_paid_have_reference
    (snd (admin_update_order_status Examples.STATUS_CHOICES Examples.root 1
            (Some "shipped") w)) /\
  all_paid_have_reference
    (snd (stripe_webhook (Examples.stripe_paid 5000) (Some Examples.alice)
            (Some "whsec") "{}" (Some "t=1") w)).
Proof.
  intros w.
  assert (all_paid_have_reference w) as Hw.
  { constructor; [|constructor]. intros H. discriminate H. }
  split; [exact Hw|].
  destruct (paid_reference_invariant w Hw) as (Hc & Hx & Ha & Hk).
  repeat split; [apply Hc | apply Hx | apply Ha | apply Hk].
Defined.

(** ** The dashboard *)

Section DashboardProperties.

Variable float : Type.
Variable truediv : Z -> Z -> float.
Variable mul_int : float -> Z -> float.
Variable round2 : float -> float.

Lemma count_nonneg (p : Order -> bool) (l : list Order) : 0 <= count p l.
Proof. unfold count. lia. Qed.

(** C7: the growth figure of the dashboard is 100 when the prior week has
    no order and the current week has some, 0 when neither week has any,
    and otherwise the current week's count minus the prior week's, divided
    by the prior week's, times 100, rounded to 2 decimal places; the counts
    are never negative, so the three cases are all there is. *)
Theorem dashboard_growth (user : User) (now : Z) (w : World) :
  is_admin user = true ->
  let this_week := this_week_orders now (orders w) in
  let last_week := last_week_orders now (orders w) in
  exists d : DashboardData float,
    admin_dashboard_data truediv mul_int round2 user now w = Dashboard d /\
    0 <= this_week /\ 0 <= last_week /\
    (last_week = 0 -> 0 < this_week -> dd_growth d = PyInt 100) /\
    (last_week = 0 -> this_week = 0 -> dd_growth d = PyInt 0) /\
    (last_week <> 0 ->
     dd_growth d =
     PyFloat (round2 (mul_int (truediv (this_week - last_week) last_week)
                              100))).
Proof.
  intros Ha this_week last_week. unfold admin_dashboard_data.
  rewrite Ha. cbn [negb]. eexists. split; [reflexivity|].
  cbn [dd_growth]. fold this_week last_week.
  split; [apply count_nonneg|]. split; [apply count_nonneg|].
  unfold growth. repeat split.
  - intros Hl Ht. rewrite Hl. cbn [Z.eqb negb].
    apply Z.ltb_lt in Ht. rewrite Ht. reflexivity.
  - intros Hl Ht. rewrite Hl, Ht. reflexivity.
  - intros Hl. apply Z.eqb_neq in Hl. rewrite Hl. reflexivity.
Qed.

End DashboardProperties.

(** C7 at work, in exact rational arithmetic: three orders in the prior week,
    four in the current one. *)
Lemma dashboard_growth_witness :
  let at_day (n : Z) := {| o_id := n; o_user := 1; o_items := [];
                           o_total_amount := 0; o_status := "pending";
                           o_payment_method := None;
                           o_payment_status := "unpaid";
                           o_payment_intent_id := None;
                           o_created_at := days n |} in
  let w := Examples.world (map at_day [1; 2; 3; 8; 9; 10; 11]) in
  exists d : DashboardData Q,
    admin_dashboard_data Examples.q_truediv Examples.q_mul_int
      Examples.q_round2 Examples.root (days 14) w = Dashboard d /\
    dd_growth d =
    PyFloat (Examples.q_round2
               (Examples.q_mul_int (Examples.q_truediv (4 - 3) 3) 100)).
Proof.
  intros at_day w.
  destruct (dashboard_growth Q Examples.q_truediv Examples.q_mul_int
              Examples.q_round2 Examples.root (days 14) w eq_refl)
    as (d & Hd & _ & _ & _ & _ & Hg).
  exists d. split; [exact Hd|]. apply Hg. discriminate.
Defined.

(** ** The model at work *)

(** Two line items on one product: each loads the product as the previous one
    saved it, so both quantities arrive. *)
Example restore_stock_same_product :
  restore_stock
    [ {| item_product := 7; item_quantity := 2; item_price := 2500 |};
      {| item_product := 7; item_quantity := 3; item_price := 2500 |};
      {| item_product := 8; item_quantity := 1; item_price := 100 |} ]
    (fun _ => 10) 7 = 15.
Proof. reflexivity. Qed.

(** A succeeded event for a known intent marks the order paid and sends the
    e-mail within the request. *)
Example webhook_known_intent :
  let stripe :=
    {| PaymentIntent_retrieve := fun _ => StripeError "unused";
       Refund_create := fun _ => StripeError "unused";
       Webhook_construct_event := fun _ _ _ =>
         Event {| event_type := "payment_intent.succeeded";
                  event_object_id := "pi_1" |} |} in
  let w := Examples.world
             [Examples.order 1 "pending" "stripe" "unpaid" (Some "pi_1")] in
  let (response, w') :=
    stripe_webhook stripe (Some Examples.alice) (Some "whsec") "{}" None w in
  status_code response = 200 /\
  map o_payment_status (orders w') = ["paid"] /\
  emails w' = [EmailSent 1].
Proof. repeat split. Qed.

(** Week over week, from three orders to four: a third more. *)
Example growth_one_third :
  match py_round2 Examples.q_round2
          (growth Examples.q_truediv Examples.q_mul_int 4 3) with
  | PyFloat x => Qeq_bool x (3333 # 100) = true
  | PyInt _ => False
  end.
Proof. reflexivity. Qed.

Example growth_from_nothing :
  py_round2 Examples.q_round2
    (growth Examples.q_truediv Examples.q_mul_int 4 0) = PyInt 100.
Proof. reflexivity. Qed.

(** * Further properties of the views *)

(** ** Order creation *)

Section CreateFurther.

Variable status_default : string.
Variable payment_status_default : string.
Variable cart_valid : list OrderItem -> bool.

Local Abbreviation create_view :=
  (create status_default payment_status_default cart_valid).

(** A valid 'stripe' request that carries no payment intent id, or an empty
    one, is answered 400 before the gateway is asked anything: the world,
    gateway log included, is unchanged. *)
Theorem create_stripe_without_intent (stripe : Stripe) (user : User)
  (now : Z) (d : RequestData) (vd : ValidatedData) (w : World) :
  rd_payment_method d = Some "stripe" ->
  truthy (rd_payment_intent_id d) = false ->
  is_valid cart_valid d = Some vd ->
  create_view stripe user now d w =
  ({| status_code := HTTP_400_BAD_REQUEST;
      data := Error "Payment Intent ID is required for Stripe payments" |},
   w).
Proof.
  intros Hm Ht Hv. unfold create. rewrite Hv, Hm. cbn [py_eq].
  rewrite String.eqb_refl.
  destruct (rd_payment_intent_id d) as [pid|]; [|reflexivity].
  rewrite Ht. reflexivity.
Qed.

(** When the gateway answers the retrieval of the intent with an error, the
    request is answered 400 with the gateway's message after the view's
    prefix; nothing is persisted and the one call made is in the log. *)
Theorem create_stripe_error (stripe : Stripe) (user : User) (now : Z)
  (d : RequestData) (vd : ValidatedData) (pid e : string) (w : World) :
  rd_payment_method d = Some "stripe" ->
  rd_payment_intent_id d = Some pid -> pid <> "" ->
  is_valid cart_valid d = Some vd ->
  PaymentIntent_retrieve stripe pid = StripeError e ->
  create_view stripe user now d w =
  ({| status_code := HTTP_400_BAD_REQUEST;
      data := Error ("Payment verification failed: " ++ e) |},
   {| orders := orders w; stock := stock w;
      stripe_calls := stripe_calls w ++ [CallRetrieve pid];
      emails := emails w; next_id := next_id w |}).
Proof.
  intros Hm Hp Hne Hv Hr. unfold create. rewrite Hv, Hm, Hp.
  cbn [py_eq truthy]. rewrite String.eqb_refl.
  apply String.eqb_neq in Hne. rewrite Hne. cbn [negb].
  unfold bind, stripe_call. rewrite Hr. reflexivity.
Qed.

(** What each answer of the creation view says about the world.  After a
    400 the order table, the stock and the e-mail queue are as before; after
    a 201 exactly one order was appended to the table, the answer names that
    order's id and payment status, and one confirmation e-mail was queued
    for it. *)
Theorem create_answer_and_world (stripe : Stripe) (user : User) (now : Z)
  (d : RequestData) (w : World) :
  let (response, w') := create_view stripe user now d w in
  (status_code response = HTTP_400_BAD_REQUEST ->
   orders w' = orders w /\ stock w' = stock w /\ emails w' = emails w) /\
  (status_code response = HTTP_201_CREATED ->
   exists order,
     response = {| status_code := HTTP_201_CREATED;
                   data := OrderCreated (o_id order)
                             (o_payment_status order) |} /\
     orders w' = (orders w ++ [order])%list /\
     emails w' = (emails w ++ [EmailQueued (o_id order)])%list).
Proof.
  assert (forall vd w0,
             orders w0 = orders w -> emails w0 = emails w ->
             let (response, w') :=
               create_order status_default payment_status_default
                 user now vd w0 in
             (status_code response = HTTP_400_BAD_REQUEST ->
              orders w' = orders w /\ stock w' = stock w /\
              emails w' = emails w) /\
             (status_code response = HTTP_201_CREATED ->
              exists order,
                response = {| status_code := HTTP_201_CREATED;
                              data := OrderCreated (o_id order)
                                        (o_payment_status order) |} /\
                orders w' = (orders w ++ [order])%list /\
                emails w' = (emails w ++ [EmailQueued (o_id order)])%list))
    as Hsave.
  { intros vd w0 Ho He. rewrite create_order_run. split.
    - cbn. discriminate.
    - intros _.
      exists (new_order status_default payment_status_default user now vd
                (next_id w0)).
      split; [reflexivity|]. cbn [orders emails].
      rewrite Ho, He. split; reflexivity. }
  assert (forall (body : Body) (w0 : World),
             orders w0 = orders w -> stock w0 = stock w ->
             emails w0 = emails w ->
             (status_code {| status_code := HTTP_400_BAD_REQUEST;
                             data := body |} = HTTP_400_BAD_REQUEST ->
              orders w0 = orders w /\ stock w0 = stock w /\
              emails w0 = emails w) /\
             (status_code {| status_code := HTTP_400_BAD_REQUEST;
                             data := body |} = HTTP_201_CREATED ->
              exists order,
                {| status_code := HTTP_400_BAD_REQUEST; data := body |} =
                {| status_code := HTTP_201_CREATED;
                   data := OrderCreated (o_id order)
                             (o_payment_status order) |} /\
                orders w0 = (orders w ++ [order])%list /\
                emails w0 = (emails w ++ [EmailQueued (o_id order)])%list))
    as Href.
  { intros body w0 Ho Hs He. split; [auto|]. cbn. discriminate. }
  unfold create.
  destruct (is_valid cart_valid d) as [vd|];
    [|apply Href; reflexivity].
  destruct (py_eq (rd_payment_method d) "stripe").
  - destruct (rd_payment_intent_id d) as [pid|];
      [|apply Href; reflexivity].
    destruct (negb (truthy (Some pid))); [apply Href; reflexivity|].
    unfold bind at 1. unfold stripe_call.
    destruct (PaymentIntent_retrieve stripe pid) as [intent|e];
      [|apply Href; reflexivity].
    destruct (negb (String.eqb (pi_status intent) "succeeded"));
      [apply Href; reflexivity|].
    apply Hsave; reflexivity.
  - destruct (py_eq (rd_payment_method d) "mock"); apply Hsave; reflexivity.
Qed.

(** Creation asks the gateway at most one thing, and only for a 'stripe'
    request: to retrieve the intent the request names.  It never asks for a
    refund. *)
Theorem create_gateway_calls (stripe : Stripe) (user : User) (now : Z)
  (d : RequestData) (w : World) :
  let w' := snd (create_view stripe user now d w) in
  stripe_calls w' = stripe_calls w \/
  (rd_payment_method d = Some "stripe" /\
   exists pid, rd_payment_intent_id d = Some pid /\ pid <> "" /\
               stripe_calls w' = (stripe_calls w ++ [CallRetrieve pid])%list).
Proof.
  unfold create.
  destruct (is_valid cart_valid d) as [vd|]; [|left; reflexivity].
  destruct (py_eq (rd_payment_method d) "stripe") eqn:Es.
  - destruct (rd_payment_intent_id d) as [pid|] eqn:Ep; [|left; reflexivity].
    destruct (negb (truthy (Some pid))) eqn:Et; [left; reflexivity|].
    right. split.
    { destruct (rd_payment_method d) as [m|]; [|discriminate].
      cbn in Es. apply String.eqb_eq in Es. congruence. }
    exists pid. split; [reflexivity|]. split.
    { cbn in Et. intros ->. discriminate. }
    unfold bind at 1. unfold stripe_call.
    destruct (PaymentIntent_retrieve stripe pid) as [intent|e];
      [|reflexivity].
    destruct (negb (String.eqb (pi_status intent) "succeeded"));
      [reflexivity|].
    rewrite create_order_run. reflexivity.
  - left.
    destruct (py_eq (rd_payment_method d) "mock");
      rewrite create_order_run; reflexivity.
Qed.

End CreateFurther.

Lemma create_stripe_without_intent_witness :
  let w := Examples.world [] in
  create "pending" "unpaid" Examples.any_cart (Examples.stripe_paid 5000)
    Examples.alice 0 (Examples.request "stripe" (Some "")) w =
  ({| status_code := HTTP_400_BAD_REQUEST;
      data := Error "Payment Intent ID is required for Stripe payments" |},
   w).
Proof.
  apply (create_stripe_without_intent "pending" "unpaid" Examples.any_cart
           (Examples.stripe_paid 5000) Examples.alice 0
           (Examples.request "stripe" (Some ""))
           (Examples.validated "stripe"));
    reflexivity.
Defined.

Lemma create_answer_and_world_witness :
  let w := Examples.world [] in
  let (response, w') :=
    create "pending" "unpaid" Examples.any_cart Examples.stripe_unpaid
      Examples.alice 0 (Examples.request "stripe" (Some "pi_1")) w in
  orders w' = orders w /\ stock w' = stock w /\ emails w' = emails w.
Proof.
  intros w.
  exact (proj1 (create_answer_and_world "pending" "unpaid" Examples.any_cart
                  Examples.stripe_unpaid Examples.alice 0
                  (Examples.request "stripe" (Some "pi_1")) w) eq_refl).
Defined.

Lemma create_stripe_error_witness :
  create "pending" "unpaid" Examples.any_cart Examples.stripe_down
    Examples.alice 0 (Examples.request "stripe" (Some "pi_1"))
    (Examples.world []) =
  ({| status_code := HTTP_400_BAD_REQUEST;
      data := Error "Payment verification failed: api connection" |},
   {| orders := []; stock := fun _ => 10;
      stripe_calls := [CallRetrieve "pi_1"];
      emails := []; next_id := 100 |}).
Proof.
  apply (create_stripe_error "pending" "unpaid" Examples.any_cart
           Examples.stripe_down Examples.alice 0
           (Examples.request "stripe" (Some "pi_1"))
           (Examples.validated "stripe") "pi_1" "api connection"
           (Examples.world []));
    [reflexivity | reflexivity | discriminate | reflexivity | reflexivity].
Defined.

Lemma create_stripe_succeeded_witness :
  create "pending" "unpaid" Examples.any_cart (Examples.stripe_paid 5000)
    Examples.alice 0 (Examples.request "stripe" (Some "pi_1"))
    (Examples.world []) =
  ({| status_code := HTTP_201_CREATED; data := OrderCreated 100 "paid" |},
   {| orders := [Examples.order 100 "pending" "stripe" "paid" (Some "pi_1")];
      stock := take_stock Examples.cart (fun _ => 10);
      stripe_calls := [CallRetrieve "pi_1"];
      emails := [EmailQueued 100];
      next_id := 101 |}).
Proof.
  apply (create_stripe_succeeded "pending" "unpaid" Examples.any_cart
           (Examples.stripe_paid 5000) Examples.alice 0
           (Examples.request "stripe" (Some "pi_1"))
           (Examples.validated "stripe") "pi_1" 5000 (Examples.world []));
    [reflexivity | reflexivity | discriminate | reflexivity | reflexivity].
Defined.

(** ** Cancellation *)

Lemma find_none_all (p : Order -> bool) (l : list Order) :
  (forall o, In o l -> p o = false) -> find p l = None.
Proof.
  induction l as [|r l IH]; intros H; cbn; [reflexivity|].
  rewrite (H r (or_introl eq_refl)). apply IH.
  intros o Ho. apply H. right. exact Ho.
Qed.

(** An order of another user cannot be cancelled: when every order with the
    requested id belongs to someone else, the answer is 404 and the world is
    unchanged. *)
Theorem cancel_foreign_order (stripe : Stripe) (user : User)
  (order_id : OrderId) (w : World) :
  (forall o, In o (orders w) -> o_id o = order_id ->
             o_user o <> user_id user) ->
  cancel_order stripe user order_id w =
  ({| status_code := HTTP_404_NOT_FOUND; data := NotFound |}, w).
Proof.
  intros H. unfold cancel_order, bind, get_object.
  rewrite find_none_all; [reflexivity|].
  intros o Ho. unfold order_of.
  destruct (o_id o =? order_id) eqn:Ei; [|reflexivity].
  apply Z.eqb_eq in Ei. apply Z.eqb_neq. apply (H o Ho Ei).
Qed.

Lemma cancel_foreign_order_witness :
  let w := Examples.world
             [Examples.order 1 "pending" "mock" "paid" None] in
  cancel_order Examples.stripe_down Examples.root 1 w =
  ({| status_code := HTTP_404_NOT_FOUND; data := NotFound |}, w).
Proof.
  apply (cancel_foreign_order Examples.stripe_down Examples.root 1).
  intros o [<- | []] _. discriminate.
Defined.

(** Once [cancel_finish] has run on the row the lookup found, the order
    cannot be cancelled again. *)
Lemma cancel_after_finish (stripe : Stripe) (user : User)
  (order_id : OrderId) (order o' : Order) (w0 w : World) :
  find (order_of user order_id) (orders w) = Some order ->
  orders w0 = orders w ->
  o_id o' = o_id order -> o_user o' = o_user order ->
  cancel_order stripe user order_id (snd (cancel_finish o' w0)) =
  ({| status_code := HTTP_400_BAD_REQUEST;
      data := Error "Order cannot be cancelled" |},
   snd (cancel_finish o' w0)).
Proof.
  intros Hf Ho Hid Hu. rewrite cancel_finish_run. cbn [snd].
  unfold cancel_order, bind, get_object. cbn [orders]. rewrite Ho.
  rewrite (find_update_row user order_id order (with_status "cancelled" o')
             (orders w) Hf Hid Hu).
  reflexivity.
Qed.

(** A cancellation that succeeded cannot be repeated: the same request again
    is answered 400 and changes nothing, so the stock is restored once and no
    second refund is asked for, whatever the gateway would answer. *)
Theorem cancel_twice (stripe stripe' : Stripe) (user : User)
  (order_id : OrderId) (w : World) :
  let (first, w1) := cancel_order stripe user order_id w in
  status_code first = HTTP_200_OK ->
  cancel_order stripe' user order_id w1 =
  ({| status_code := HTTP_400_BAD_REQUEST;
      data := Error "Order cannot be cancelled" |}, w1).
Proof.
  pose proof (cancel_after_finish stripe' user order_id) as Hfin.
  unfold cancel_order at 1. unfold bind, get_object.
  destruct (find (order_of user order_id) (orders w)) as [order|] eqn:Hf;
    [|cbn; discriminate].
  destruct (negb (py_in (o_status order) ["pending"; "processing"]));
    [cbn; discriminate|].
  assert (forall o' w0, orders w0 = orders w ->
            o_id o' = o_id order -> o_user o' = o_user order ->
            let (first, w1) := cancel_finish o' w0 in
            status_code first = HTTP_200_OK ->
            cancel_order stripe' user order_id w1 =
            ({| status_code := HTTP_400_BAD_REQUEST;
                data := Error "Order cannot be cancelled" |}, w1)) as Hstep.
  { intros o' w0 Ho Hid Hu.
    pose proof (Hfin order o' w0 w Hf Ho Hid Hu) as H.
    destruct (cancel_finish o' w0) as [first w1]. intros _. exact H. }
  destruct (refund_due order); [|apply Hstep; reflexivity].
  destruct (o_payment_intent_id order) as [pid|];
    [|apply Hstep; reflexivity].
  unfold stripe_call.
  destruct (Refund_create stripe pid) as [refund|e]; [|cbn; discriminate].
  destruct (String.eqb (refund_status refund) "succeeded");
    [|cbn; discriminate].
  apply Hstep; reflexivity.
Qed.

Lemma cancel_twice_witness :
  let w := Examples.world
             [Examples.order 1 "pending" "stripe" "paid" (Some "pi_1")] in
  let w1 := snd (cancel_order (Examples.stripe_paid 5000) Examples.alice 1 w) in
  cancel_order (Examples.stripe_paid 5000) Examples.alice 1 w1 =
  ({| status_code := HTTP_400_BAD_REQUEST;
      data := Error "Order cannot be cancelled" |}, w1).
Proof.
  intros w w1.
  exact (cancel_twice (Examples.stripe_paid 5000) (Examples.stripe_paid 5000)
           Examples.alice 1 w eq_refl).
Defined.

(** Cancellation asks the gateway at most one thing: to refund the payment
    intent of the order found, and only when that order is one the guard of
    line 145 lets through. *)
Theorem cancel_gateway_calls (stripe : Stripe) (user : User)
  (order_id : OrderId) (w : World) :
  let w' := snd (cancel_order stripe user order_id w) in
  stripe_calls w' = stripe_calls w \/
  (exists order pid,
      find (order_of user order_id) (orders w) = Some order /\
      refund_due order = true /\
      o_payment_intent_id order = Some pid /\
      stripe_calls w' = (stripe_calls w ++ [CallRefund pid])%list).
Proof.
  unfold cancel_order, bind, get_object.
  destruct (find (order_of user order_id) (orders w)) as [order|] eqn:Hf;
    [|left; reflexivity].
  destruct (negb (py_in (o_status order) ["pending"; "processing"]));
    [left; reflexivity|].
  destruct (refund_due order) eqn:Ed;
    [|left; rewrite cancel_finish_run; reflexivity].
  destruct (o_payment_intent_id order) as [pid|] eqn:Ei;
    [|left; rewrite cancel_finish_run; reflexivity].
  right. exists order, pid. repeat split; try assumption.
  unfold stripe_call.
  destruct (Refund_create stripe pid) as [refund|e]; [|reflexivity].
  destruct (String.eqb (refund_status refund) "succeeded"); [|reflexivity].
  rewrite cancel_finish_run. reflexivity.
Qed.

(** What a successful cancellation leaves in the table for the order: status
    'cancelled', and payment status 'refunded' exactly when a refund was due;
    every other column as it was. *)
Theorem cancel_stored_order (stripe : Stripe) (user : User)
  (order_id : OrderId) (order : Order) (w : World) :
  find (order_of user order_id) (orders w) = Some order ->
  let (response, w') := cancel_order stripe user order_id w in
  status_code response = HTTP_200_OK ->
  find (order_of user order_id) (orders w') =
  Some (with_status "cancelled"
          (if refund_due order then with_payment_status "refunded" order
           else order)).
Proof.
  intros Hf. unfold cancel_order, bind, get_object. rewrite Hf.
  destruct (negb (py_in (o_status order) ["pending"; "processing"]));
    [cbn; discriminate|].
  assert (forall o' w0, orders w0 = orders w ->
            o_id o' = o_id order -> o_user o' = o_user order ->
            let (response, w') := cancel_finish o' w0 in
            status_code response = HTTP_200_OK ->
            find (order_of user order_id) (orders w') =
            Some (with_status "cancelled" o')) as Hstep.
  { intros o' w0 Ho Hid Hu. rewrite cancel_finish_run. intros _.
    cbn [orders]. rewrite Ho.
    apply (find_update_row user order_id order); assumption. }
  destruct (refund_due order) eqn:Ed; [|apply Hstep; reflexivity].
  destruct (o_payment_intent_id order) as [pid|] eqn:Ei.
  - unfold stripe_call.
    destruct (Refund_create stripe pid) as [refund|e]; [|cbn; discriminate].
    destruct (String.eqb (refund_status refund) "succeeded");
      [|cbn; discriminate].
    apply Hstep; reflexivity.
  - unfold refund_due in Ed. rewrite Ei in Ed. cbn in Ed.
    rewrite andb_false_r in Ed. discriminate.
Qed.

Lemma cancel_stored_order_witness :
  let order := Examples.order 1 "pending" "stripe" "paid" (Some "pi_1") in
  let w := Examples.world [order] in
  find (order_of Examples.alice 1)
    (orders (snd (cancel_order (Examples.stripe_paid 5000) Examples.alice 1
                    w))) =
  Some (Examples.order 1 "cancelled" "stripe" "refunded" (Some "pi_1")).
Proof.
  intros order w.
  exact (cancel_stored_order (Examples.stripe_paid 5000) Examples.alice 1
           order w eq_refl eq_refl).
Defined.

(** ** The administrative views *)

Lemma find_update_row_by_id (order_id : OrderId) (o o' : Order)
  (l : list Order) :
  find (fun r => o_id r =? order_id) l = Some o ->
  o_id o' = o_id o ->
  find (fun r => o_id r =? order_id) (update_row o' l) = Some o'.
Proof.
  intros Hf Hid.
  assert ((o_id o =? order_id) = true) as Ho
    by (apply find_some in Hf; tauto).
  assert ((o_id o' =? order_id) = true) as Ho' by (rewrite Hid; exact Ho).
  induction l as [|r l IH]; cbn in Hf |- *; [discriminate|].
  destruct (o_id r =? order_id) eqn:Er.
  - injection Hf as ->. rewrite Hid, Z.eqb_refl, Ho'. reflexivity.
  - destruct (o_id r =? o_id o').
    + rewrite Ho'. reflexivity.
    + rewrite Er. auto.
Qed.

(** A caller who is not an administrator gets 403 from each of the three
    administrative views, and the status update changes nothing. *)
Theorem admin_views_require_admin (float : Type) (truediv : Z -> Z -> float)
  (mul_int : float -> Z -> float) (round2 : float -> float)
  (choices : list string) (user : User) (order_id : OrderId)
  (new_status : option string) (now : Z) (w : World) :
  is_admin user = false ->
  admin_orders user w = Refused HTTP_403_FORBIDDEN "Permission denied" /\
  admin_update_order_status choices user order_id new_status w =
  ({| status_code := HTTP_403_FORBIDDEN;
      data := Error "Permission denied" |}, w) /\
  admin_dashboard_data truediv mul_int round2 user now w = PermissionDenied.
Proof.
  intros Ha. unfold admin_orders, admin_update_order_status,
    admin_dashboard_data. rewrite Ha. repeat split.
Qed.

Lemma admin_views_require_admin_witness :
  let w := Examples.world
             [Examples.order 1 "pending" "mock" "paid" None] in
  admin_orders Examples.alice w =
    Refused HTTP_403_FORBIDDEN "Permission denied" /\
  admin_update_order_status Examples.STATUS_CHOICES Examples.alice 1
    (Some "shipped") w =
  ({| status_code := HTTP_403_FORBIDDEN;
      data := Error "Permission denied" |}, w) /\
  admin_dashboard_data Examples.q_truediv Examples.q_mul_int
    Examples.q_round2 Examples.alice 0 w = PermissionDenied.
Proof.
  intros w.
  exact (admin_views_require_admin Q Examples.q_truediv Examples.q_mul_int
           Examples.q_round2 Examples.STATUS_CHOICES Examples.alice 1
           (Some "shipped") 0 w eq_refl).
Defined.

(** An administrator's update with a status among the choices answers 200
    with the order as updated, and a lookup of the order afterwards gives it
    with the new status and every other column as before.  Stock, gateway
    log and e-mails are untouched: setting 'cancelled' this way restores no
    stock and asks for no refund. *)
Theorem admin_update_sets_status (choices : list string) (user : User)
  (order_id : OrderId) (s : string) (order : Order) (w : World) :
  is_admin user = true ->
  find (fun o => o_id o =? order_id) (orders w) = Some order ->
  py_in s choices = true ->
  let (response, w') :=
    admin_update_order_status choices user order_id (Some s) w in
  response = {| status_code := HTTP_200_OK;
                data := OrderData (with_status s order) |} /\
  find (fun o => o_id o =? order_id) (orders w') =
    Some (with_status s order) /\
  stock w' = stock w /\ stripe_calls w' = stripe_calls w /\
  emails w' = emails w.
Proof.
  intros Ha Hf Hs. unfold admin_update_order_status.
  rewrite Ha. cbn [negb]. unfold bind, get_object.
  rewrite Hf, Hs. cbn. repeat split.
  apply find_update_row_by_id with (o := order); [exact Hf|reflexivity].
Qed.

Lemma admin_update_sets_status_witness :
  let order := Examples.order 1 "pending" "stripe" "paid" (Some "pi_1") in
  let w := Examples.world [order] in
  let (response, w') :=
    admin_update_order_status Examples.STATUS_CHOICES Examples.root 1
      (Some "cancelled") w in
  response = {| status_code := HTTP_200_OK;
                data := OrderData (with_status "cancelled" order) |} /\
  find (fun o => o_id o =? 1) (orders w') =
    Some (with_status "cancelled" order) /\
  stock w' = stock w /\ stripe_calls w' = stripe_calls w /\
  emails w' = emails w.
Proof.
  intros order w.
  exact (admin_update_sets_status Examples.STATUS_CHOICES Examples.root 1
           "cancelled" order w eq_refl eq_refl eq_refl).
Defined.



(** ** What the views leave alone *)

Lemma update_row_ids (o : Order) (l : list Order) :
  map o_id (update_row o l) = map o_id l.
Proof.
  unfold update_row.
  induction l as [|r l IH]; cbn [map]; [reflexivity|]. rewrite IH. f_equal.
  destruct (o_id r =? o_id o) eqn:E; [|reflexivity].
  apply Z.eqb_eq in E. symmetry. exact E.
Qed.

(** No view deletes an order or changes an id: cancellation, the
    administrative update and the webhook leave the sequence of order ids as
    it was, on every input. *)
Theorem order_ids_preserved (w : World) :
  (forall stripe user order_id,
      map o_id (orders (snd (cancel_order stripe user order_id w))) =
      map o_id (orders w)) /\
  (forall choices user order_id new_status,
      map o_id (orders (snd (admin_update_order_status choices user order_id
                               new_status w))) =
      map o_id (orders w)) /\
  (forall stripe caller secret payload sig_header,
      map o_id (orders (snd (stripe_webhook stripe caller secret payload
                               sig_header w))) =
      map o_id (orders w)).
Proof.
  split; [|split].
  - intros stripe user order_id. unfold cancel_order, bind, get_object.
    destruct (find (order_of user order_id) (orders w)) as [order|];
      [|reflexivity].
    destruct (negb (py_in (o_status order) ["pending"; "processing"]));
      [reflexivity|].
    assert (forall o' w0, orders w0 = orders w ->
              map o_id (orders (snd (cancel_finish o' w0))) =
              map o_id (orders w)) as Hstep.
    { intros o' w0 Ho. rewrite cancel_finish_run. cbn [snd orders].
      rewrite update_row_ids, Ho. reflexivity. }
    destruct (refund_due order); [|apply Hstep; reflexivity].
    destruct (o_payment_intent_id order) as [pid|];
      [|apply Hstep; reflexivity].
    unfold stripe_call.
    destruct (Refund_create stripe pid) as [refund|e]; [|reflexivity].
    destruct (String.eqb (refund_status refund) "succeeded");
      [|reflexivity].
    apply Hstep; reflexivity.
  - intros choices user order_id new_status.
    unfold admin_update_order_status, bind, get_object.
    destruct (negb (is_admin user)); [reflexivity|].
    destruct (find (fun o => o_id o =? order_id) (orders w)) as [order|];
      [|reflexivity].
    destruct new_status as [s|]; [|reflexivity].
    destruct (negb (py_in s choices)); [reflexivity|].
    cbn. apply update_row_ids.
  - intros stripe caller secret payload sig_header. unfold stripe_webhook.
    destruct caller as [u|]; [|reflexivity].
    destruct secret as [endpoint_secret|]; [|reflexivity].
    destruct (negb (truthy (Some endpoint_secret))); [reflexivity|].
    destruct (Webhook_construct_event stripe payload sig_header
                endpoint_secret) as [event| |]; [|reflexivity|reflexivity].
    destruct (String.eqb (event_type event) "payment_intent.succeeded").
    + unfold bind, objects_get.
      destruct (filter (has_intent (event_object_id event)) (orders w))
        as [|o [|o' l]]; [reflexivity| |reflexivity].
      cbn. apply update_row_ids.
    + destruct (String.eqb (event_type event)
                  "payment_intent.payment_failed"); [|reflexivity].
      unfold bind, objects_get.
      destruct (filter (has_intent (event_object_id event)) (orders w))
        as [|o [|o' l]]; [reflexivity| |reflexivity].
      cbn. apply update_row_ids.
Qed.

(** Only cancellation gives stock back and only creation and cancellation
    talk to the gateway: the administrative update leaves stock, gateway log
    and e-mails as they were, and the webhook leaves stock and gateway log as
    they were, on every input. *)
Theorem admin_and_webhook_leave_stock (w : World) :
  (forall choices user order_id new_status,
      let w' := snd (admin_update_order_status choices user order_id
                       new_status w) in
      stock w' = stock w /\ stripe_calls w' = stripe_calls w /\
      emails w' = emails w) /\
  (forall stripe caller secret payload sig_header,
      let w' :=
        snd (stripe_webhook stripe caller secret payload sig_header w) in
      stock w' = stock w /\ stripe_calls w' = stripe_calls w).
Proof.
  split.
  - intros choices user order_id new_status.
    unfold admin_update_order_status, bind, get_object.
    destruct (negb (is_admin user)); [repeat split|].
    destruct (find (fun o => o_id o =? order_id) (orders w)) as [order|];
      [|repeat split].
    destruct new_status as [s|]; [|repeat split].
    destruct (negb (py_in s choices)); repeat split.
  - intros stripe caller secret payload sig_header. unfold stripe_webhook.
    destruct caller as [u|]; [|split; reflexivity].
    destruct secret as [endpoint_secret|]; [|split; reflexivity].
    destruct (negb (truthy (Some endpoint_secret))); [split; reflexivity|].
    destruct (Webhook_construct_event stripe payload sig_header
                endpoint_secret) as [event| |];
      [|split; reflexivity|split; reflexivity].
    destruct (String.eqb (event_type event) "payment_intent.succeeded").
    + unfold bind, objects_get.
      destruct (filter (has_intent (event_object_id event)) (orders w))
        as [|o [|o' l]]; split; reflexivity.
    + destruct (String.eqb (event_type event)
                  "payment_intent.payment_failed"); [|split; reflexivity].
      unfold bind, objects_get.
      destruct (filter (has_intent (event_object_id event)) (orders w))
        as [|o [|o' l]]; split; reflexivity.
Qed.

(** ** Webhook reconciliation *)


(** For an authenticated caller: without a configured secret, or when the
    payload or its signature does not verify, the webhook is answered 400
    and changes nothing. *)
Theorem webhook_unverified (stripe : Stripe) (user : User)
  (secret : option string) (payload : string) (sig_header : option string)
  (w : World) :
  truthy secret = false \/
  (forall endpoint_secret event,
      secret = Some endpoint_secret ->
      Webhook_construct_event stripe payload sig_header endpoint_secret <>
      Event event) ->
  let (response, w') :=
    stripe_webhook stripe (Some user) secret payload sig_header w in
  status_code response = 400 /\ w' = w.
Proof.
  intros H. unfold stripe_webhook.
  destruct secret as [endpoint_secret|]; [|split; reflexivity].
  destruct (negb (truthy (Some endpoint_secret))) eqn:Et;
    [split; reflexivity|].
  destruct H as [H | H].
  - rewrite H in Et. discriminate.
  - specialize (H endpoint_secret).
    destruct (Webhook_construct_event stripe payload sig_header
                endpoint_secret) as [event| |];
      [|split; reflexivity|split; reflexivity].
    exfalso. apply (H event); reflexivity.
Qed.

Lemma webhook_unverified_witness :
  let w := Examples.world
             [Examples.order 1 "pending" "stripe" "unpaid" (Some "pi_1")] in
  let (response, w') :=
    stripe_webhook Examples.stripe_unpaid (Some Examples.alice) (Some "whsec")
      "{}" (Some "t=1") w in
  status_code response = 400 /\ w' = w.
Proof.
  intros w.
  apply (webhook_unverified Examples.stripe_unpaid Examples.alice
           (Some "whsec") "{}" (Some "t=1") w).
  right. intros endpoint_secret event _. discriminate.
Defined.

(** For an authenticated caller, a verified event of any other kind is
    acknowledged and changes nothing. *)
Theorem webhook_other_event (stripe : Stripe) (user : User)
  (secret payload : string)
  (sig_header : option string) (event : WebhookEvent) (w : World) :
  secret <> "" ->
  Webhook_construct_event stripe payload sig_header secret = Event event ->
  event_type event <> "payment_intent.succeeded" ->
  event_type event <> "payment_intent.payment_failed" ->
  stripe_webhook stripe (Some user) (Some secret) payload sig_header w =
  ({| status_code := HTTP_200_OK; data := StatusSuccess |}, w).
Proof.
  intros Hs Hc H1 H2. unfold stripe_webhook. cbn [truthy].
  apply String.eqb_neq in Hs, H1, H2. rewrite Hs, Hc, H1, H2. reflexivity.
Qed.

Lemma webhook_other_event_witness :
  let stripe :=
    {| PaymentIntent_retrieve := fun _ => StripeError "unused";
       Refund_create := fun _ => StripeError "unused";
       Webhook_construct_event := fun _ _ _ =>
         Event {| event_type := "charge.refunded";
                  event_object_id := "pi_1" |} |} in
  let w := Examples.world
             [Examples.order 1 "pending" "stripe" "paid" (Some "pi_1")] in
  stripe_webhook stripe (Some Examples.alice) (Some "whsec") "{}" None w =
  ({| status_code := HTTP_200_OK; data := StatusSuccess |}, w).
Proof.
  intros stripe w.
  apply (webhook_other_event stripe Examples.alice "whsec" "{}" None
           {| event_type := "charge.refunded"; event_object_id := "pi_1" |} w);
    [discriminate | reflexivity | discriminate | discriminate].
Defined.

(** For an authenticated caller: when several orders carry the event's
    payment intent id the lookup raises [MultipleObjectsReturned], which the
    view does not catch: the request ends in a 500 and no order is
    changed. *)
Theorem webhook_ambiguous (stripe : Stripe) (user : User)
  (secret payload : string)
  (sig_header : option string) (event : WebhookEvent) (o1 o2 : Order)
  (l : list Order) (w : World) :
  secret <> "" ->
  Webhook_construct_event stripe payload sig_header secret = Event event ->
  event_type event = "payment_intent.succeeded" \/
  event_type event = "payment_intent.payment_failed" ->
  filter (has_intent (event_object_id event)) (orders w) = o1 :: o2 :: l ->
  stripe_webhook stripe (Some user) (Some secret) payload sig_header w =
  ({| status_code := HTTP_500_INTERNAL_SERVER_ERROR; data := ServerError |},
   w).
Proof.
  intros Hs Hc Ht Hf. unfold stripe_webhook. cbn [truthy].
  apply String.eqb_neq in Hs. rewrite Hs, Hc. cbn [negb].
  destruct Ht as [Ht | Ht]; rewrite Ht; eval_eqb;
    unfold bind, objects_get; rewrite Hf; reflexivity.
Qed.

Lemma webhook_ambiguous_witness :
  let stripe :=
    {| PaymentIntent_retrieve := fun _ => StripeError "unused";
       Refund_create := fun _ => StripeError "unused";
       Webhook_construct_event := fun _ _ _ =>
         Event {| event_type := "payment_intent.succeeded";
                  event_object_id := "pi_1" |} |} in
  let w := Examples.world
             [Examples.order 1 "pending" "stripe" "unpaid" (Some "pi_1");
              Examples.order 2 "pending" "stripe" "unpaid" (Some "pi_1")] in
  stripe_webhook stripe (Some Examples.alice) (Some "whsec") "{}" None w =
  ({| status_code := HTTP_500_INTERNAL_SERVER_ERROR; data := ServerError |},
   w).
Proof.
  intros stripe w.
  apply (webhook_ambiguous stripe Examples.alice "whsec" "{}" None
           {| event_type := "payment_intent.succeeded";
              event_object_id := "pi_1" |}
           (Examples.order 1 "pending" "stripe" "unpaid" (Some "pi_1"))
           (Examples.order 2 "pending" "stripe" "unpaid" (Some "pi_1"))
           [] w);
    [discriminate | reflexivity | left; reflexivity | reflexivity].
Defined.

(** *** One matching order *)

Lemma update_row_fresh (o : Order) (l : list Order) :
  ~ In (o_id o) (map o_id l) -> update_row o l = l.
Proof.
  unfold update_row. induction l as [|r l IH]; intros H; cbn [map];
    [reflexivity|].
  cbn [map] in H. rewrite IH by (intros Hin; apply H; right; exact Hin).
  destruct (o_id r =? o_id o) eqn:E; [|reflexivity].
  apply Z.eqb_eq in E. exfalso. apply H. left. exact E.
Qed.

Lemma map_unmatched (p : Order -> bool) (f : Order -> Order)
  (l : list Order) :
  filter p l = [] -> map (fun r => if p r then f r else r) l = l.
Proof.
  induction l as [|r l IH]; cbn; [reflexivity|].
  destruct (p r); [discriminate|]. intros H. rewrite IH by exact H.
  reflexivity.
Qed.

(** Under the primary key, saving the changed copy of the one row a filter
    selects changes that row and no other. *)
Lemma update_row_matching (p : Order -> bool) (f : Order -> Order)
  (o : Order) (l : list Order) :
  NoDup (map o_id l) -> filter p l = [o] -> o_id (f o) = o_id o ->
  update_row (f o) l = map (fun r => if p r then f r else r) l.
Proof.
  intros Hn Hf Hid. induction l as [|r l IH]; [reflexivity|].
  cbn [map] in Hn. inversion Hn as [|x xs Hnotin Hn']; subst.
  cbn [filter] in Hf. cbn [map]. unfold update_row in *. cbn [map].
  destruct (p r) eqn:Ep.
  - injection Hf as -> Hf. f_equal.
    + rewrite Hid, Z.eqb_refl. reflexivity.
    + rewrite (map_unmatched p f l Hf).
      apply (update_row_fresh (f o)). rewrite Hid. exact Hnotin.
  - rewrite IH by assumption.
    destruct (o_id r =? o_id (f o)) eqn:E; [|reflexivity].
    exfalso. apply Z.eqb_eq in E. rewrite Hid in E. apply Hnotin.
    rewrite E. apply in_map.
    assert (In o (filter p l)) as Hin by (rewrite Hf; left; reflexivity).
    apply filter_In in Hin. tauto.
Qed.

Lemma filter_map_compat (p : Order -> bool) (g : Order -> Order)
  (l : list Order) :
  (forall r, p (g r) = p r) -> filter p (map g l) = map g (filter p l).
Proof.
  intros H. induction l as [|r l IH]; cbn; [reflexivity|].
  rewrite H. destruct (p r); cbn; rewrite IH; reflexivity.
Qed.

Lemma update_row_idem (o : Order) (l : list Order) :
  update_row o (update_row o l) = update_row o l.
Proof.
  unfold update_row. rewrite map_map. apply map_ext. intros r.
  destruct (o_id r =? o_id o) eqn:E; [|rewrite E; reflexivity].
  rewrite Z.eqb_refl. reflexivity.
Qed.

(** The view on a verified 'payment_intent.succeeded' event that one order
    matches, for an authenticated caller, in one equation. *)
Lemma webhook_succeeded_run (stripe : Stripe) (user : User)
  (secret payload : string)
  (sig_header : option string) (event : WebhookEvent) (order : Order)
  (w : World) :
  secret <> "" ->
  Webhook_construct_event stripe payload sig_header secret = Event event ->
  event_type event = "payment_intent.succeeded" ->
  filter (has_intent (event_object_id event)) (orders w) = [order] ->
  stripe_webhook stripe (Some user) (Some secret) payload sig_header w =
  ({| status_code := HTTP_200_OK; data := StatusSuccess |},
   {| orders := update_row (with_payment_status "paid" order) (orders w);
      stock := stock w; stripe_calls := stripe_calls w;
      emails := emails w ++ [EmailSent (o_id order)];
      next_id := next_id w |}).
Proof.
  intros Hs Hc Ht Hf. unfold stripe_webhook. cbn [truthy].
  apply String.eqb_neq in Hs. rewrite Hs, Hc, Ht. cbn [negb]. eval_eqb.
  unfold bind, objects_get. rewrite Hf. reflexivity.
Qed.

(** For an authenticated caller, a verified 'payment_intent.succeeded' event
    whose payment intent id one order carries marks that order paid and leaves every other row as it
    was, sends the confirmation e-mail within the request and is
    acknowledged; the order's status and the stock are not touched. *)
Theorem webhook_marks_paid (stripe : Stripe) (user : User)
  (secret payload : string)
  (sig_header : option string) (event : WebhookEvent) (order : Order)
  (w : World) :
  unique_ids w ->
  secret <> "" ->
  Webhook_construct_event stripe payload sig_header secret = Event event ->
  event_type event = "payment_intent.succeeded" ->
  filter (has_intent (event_object_id event)) (orders w) = [order] ->
  stripe_webhook stripe (Some user) (Some secret) payload sig_header w =
  ({| status_code := HTTP_200_OK; data := StatusSuccess |},
   {| orders :=
        map (fun r => if has_intent (event_object_id event) r
                      then with_payment_status "paid" r else r) (orders w);
      stock := stock w; stripe_calls := stripe_calls w;
      emails := emails w ++ [EmailSent (o_id order)];
      next_id := next_id w |}).
Proof.
  intros Hu Hs Hc Ht Hf.
  rewrite (webhook_succeeded_run stripe user secret payload sig_header event
             order w Hs Hc Ht Hf).
  rewrite (update_row_matching (has_intent (event_object_id event))
             (with_payment_status "paid") order (orders w) Hu Hf eq_refl).
  reflexivity.
Qed.

(** For an authenticated caller, a verified 'payment_intent.payment_failed'
    event whose payment intent id one order carries marks that order failed, whatever its payment status
    was, leaves every other row as it was and sends no e-mail. *)
Theorem webhook_marks_failed (stripe : Stripe) (user : User)
  (secret payload : string)
  (sig_header : option string) (event : WebhookEvent) (order : Order)
  (w : World) :
  unique_ids w ->
  secret <> "" ->
  Webhook_construct_event stripe payload sig_header secret = Event event ->
  event_type event = "payment_intent.payment_failed" ->
  filter (has_intent (event_object_id event)) (orders w) = [order] ->
  stripe_webhook stripe (Some user) (Some secret) payload sig_header w =
  ({| status_code := HTTP_200_OK; data := StatusSuccess |},
   set_orders
     (map (fun r => if has_intent (event_object_id event) r
                    then with_payment_status "failed" r else r) (orders w))
     w).
Proof.
  intros Hu Hs Hc Ht Hf. unfold stripe_webhook. cbn [truthy].
  apply String.eqb_neq in Hs. rewrite Hs, Hc, Ht. cbn [negb]. eval_eqb.
  unfold bind, objects_get. rewrite Hf. cbn.
  rewrite (update_row_matching (has_intent (event_object_id event))
             (with_payment_status "failed") order (orders w) Hu Hf eq_refl).
  reflexivity.
Qed.

(** For an authenticated caller, delivering the same
    'payment_intent.succeeded' event a second time leaves the order table as the first delivery left it, and sends the
    confirmation e-mail once more. *)
Theorem webhook_redelivery (stripe : Stripe) (user : User)
  (secret payload : string)
  (sig_header : option string) (event : WebhookEvent) (order : Order)
  (w : World) :
  unique_ids w ->
  secret <> "" ->
  Webhook_construct_event stripe payload sig_header secret = Event event ->
  event_type event = "payment_intent.succeeded" ->
  filter (has_intent (event_object_id event)) (orders w) = [order] ->
  let w1 := snd (stripe_webhook stripe (Some user) (Some secret) payload sig_header w) in
  let (again, w2) :=
    stripe_webhook stripe (Some user) (Some secret) payload sig_header w1 in
  again = {| status_code := HTTP_200_OK; data := StatusSuccess |} /\
  orders w2 = orders w1 /\
  emails w2 =
    (emails w ++ [EmailSent (o_id order); EmailSent (o_id order)])%list.
Proof.
  intros Hu Hs Hc Ht Hf.
  rewrite (webhook_succeeded_run stripe user secret payload sig_header event
             order w Hs Hc Ht Hf).
  cbn [snd].
  set (paid := with_payment_status "paid" order).
  set (w1 := {| orders := update_row paid (orders w); stock := stock w;
                stripe_calls := stripe_calls w;
                emails := emails w ++ [EmailSent (o_id order)];
                next_id := next_id w |}).
  assert (filter (has_intent (event_object_id event)) (orders w1) = [paid])
    as Hf1.
  { cbn [w1 orders]. unfold paid.
    rewrite (update_row_matching (has_intent (event_object_id event))
               (with_payment_status "paid") order (orders w) Hu Hf eq_refl).
    rewrite filter_map_compat.
    - rewrite Hf. cbn [map].
      replace (has_intent (event_object_id event) order) with true;
        [reflexivity|].
      assert (In order (filter (has_intent (event_object_id event))
                          (orders w))) as Hin
        by (rewrite Hf; left; reflexivity).
      apply filter_In in Hin. symmetry. tauto.
    - intros r. destruct (has_intent (event_object_id event) r) eqn:E;
        [|exact E]. exact E. }
  rewrite (webhook_succeeded_run stripe user secret payload sig_header event
             paid w1 Hs Hc Ht Hf1).
  split; [reflexivity|]. cbn [orders emails w1]. split.
  - change (with_payment_status "paid" paid) with paid.
    apply update_row_idem.
  - rewrite <- app_assoc. reflexivity.
Qed.

Lemma webhook_marks_paid_witness :
  let stripe :=
    {| PaymentIntent_retrieve := fun _ => StripeError "unused";
       Refund_create := fun _ => StripeError "unused";
       Webhook_construct_event := fun _ _ _ =>
         Event {| event_type := "payment_intent.succeeded";
                  event_object_id := "pi_1" |} |} in
  let w := Examples.world
             [Examples.order 1 "pending" "stripe" "unpaid" (Some "pi_1");
              Examples.order 2 "pending" "stripe" "unpaid" (Some "pi_2")] in
  stripe_webhook stripe (Some Examples.alice) (Some "whsec") "{}" None w =
  ({| status_code := HTTP_200_OK; data := StatusSuccess |},
   {| orders := [Examples.order 1 "pending" "stripe" "paid" (Some "pi_1");
                 Examples.order 2 "pending" "stripe" "unpaid" (Some "pi_2")];
      stock := stock w; stripe_calls := [];
      emails := [EmailSent 1];
      next_id := 100 |}).
Proof.
  intros stripe w.
  apply (webhook_marks_paid stripe Examples.alice "whsec" "{}" None
           {| event_type := "payment_intent.succeeded";
              event_object_id := "pi_1" |}
           (Examples.order 1 "pending" "stripe" "unpaid" (Some "pi_1")) w);
    [|discriminate | reflexivity | reflexivity | reflexivity].
  repeat constructor; cbn; intuition discriminate.
Defined.

Lemma webhook_marks_failed_witness :
  let stripe :=
    {| PaymentIntent_retrieve := fun _ => StripeError "unused";
       Refund_create := fun _ => StripeError "unused";
       Webhook_construct_event := fun _ _ _ =>
         Event {| event_type := "payment_intent.payment_failed";
                  event_object_id := "pi_1" |} |} in
  let w := Examples.world
             [Examples.order 1 "pending" "stripe" "paid" (Some "pi_1");
              Examples.order 2 "pending" "stripe" "unpaid" (Some "pi_2")] in
  stripe_webhook stripe (Some Examples.alice) (Some "whsec") "{}" None w =
  ({| status_code := HTTP_200_OK; data := StatusSuccess |},
   set_orders
     [Examples.order 1 "pending" "stripe" "failed" (Some "pi_1");
      Examples.order 2 "pending" "stripe" "unpaid" (Some "pi_2")] w).
Proof.
  intros stripe w.
  apply (webhook_marks_failed stripe Examples.alice "whsec" "{}" None
           {| event_type := "payment_intent.payment_failed";
              event_object_id := "pi_1" |}
           (Examples.order 1 "pending" "stripe" "paid" (Some "pi_1")) w);
    [|discriminate | reflexivity | reflexivity | reflexivity].
  repeat constructor; cbn; intuition discriminate.
Defined.

Lemma webhook_redelivery_witness :
  let stripe :=
    {| PaymentIntent_retrieve := fun _ => StripeError "unused";
       Refund_create := fun _ => StripeError "unused";
       Webhook_construct_event := fun _ _ _ =>
         Event {| event_type := "payment_intent.succeeded";
                  event_object_id := "pi_1" |} |} in
  let w := Examples.world
             [Examples.order 1 "pending" "stripe" "unpaid" (Some "pi_1")] in
  let w1 := snd (stripe_webhook stripe (Some Examples.alice) (Some "whsec") "{}" None w) in
  let (again, w2) := stripe_webhook stripe (Some Examples.alice) (Some "whsec") "{}" None w1 in
  again = {| status_code := HTTP_200_OK; data := StatusSuccess |} /\
  orders w2 = orders w1 /\
  emails w2 = [EmailSent 1; EmailSent 1].
Proof.
  intros stripe w.
  apply (webhook_redelivery stripe Examples.alice "whsec" "{}" None
           {| event_type := "payment_intent.succeeded";
              event_object_id := "pi_1" |}
           (Examples.order 1 "pending" "stripe" "unpaid" (Some "pi_1")) w);
    [|discriminate | reflexivity | reflexivity | reflexivity].
  repeat constructor; cbn; intuition discriminate.
Defined.

(** ** Retrieval *)

(** The detail view answers only with an order of the caller: a 200 carries
    an order of the table with the requested id whose owner is the caller;
    when every order with that id belongs to someone else, the answer is
    404. *)
Theorem order_detail_own_orders (user : User) (pk : OrderId) (w : World) :
  (forall order,
      order_detail user pk w =
        {| status_code := HTTP_200_OK; data := OrderData order |} ->
      In order (orders w) /\ o_id order = pk /\
      o_user order = user_id user) /\
  ((forall o, In o (orders w) -> o_id o = pk -> o_user o <> user_id user) ->
   order_detail user pk w =
     {| status_code := HTTP_404_NOT_FOUND; data := NotFound |}).
Proof.
  unfold order_detail, get_queryset. split.
  - intros order H.
    destruct (find (fun o => o_id o =? pk)
                (filter (fun o => o_user o =? user_id user) (orders w)))
      as [o|] eqn:Hf; [|discriminate].
    injection H as ->. apply find_some in Hf. destruct Hf as [Hin Hid].
    apply filter_In in Hin. destruct Hin as [Hin Hu].
    apply Z.eqb_eq in Hid, Hu. auto.
  - intros H. rewrite find_none_all; [reflexivity|].
    intros o Ho. apply filter_In in Ho. destruct Ho as [Ho Hu].
    apply Z.eqb_eq in Hu. apply Z.eqb_neq. intros Hid.
    apply (H o Ho Hid Hu).
Qed.

(** ** Creating a payment intent *)

Section PaymentIntentProperties.

Variable create_intent :
  Z -> Json -> Json -> User -> StripeResult CreatedIntent.
Variable user : User.

(** A missing amount, or an integer amount that is zero or negative, is
    answered 400 'Invalid amount' and the gateway is not called. *)
Theorem payment_intent_invalid_amount (d : list (string * Json)) :
  dict_get "amount" d = None \/
  (exists z, dict_get "amount" d = Some (JInt z) /\ z <= 0) ->
  create_payment_intent create_intent user d =
  (Refused HTTP_400_BAD_REQUEST "Invalid amount", []).
Proof.
  intros [H | (z & H & Hz)]; unfold create_payment_intent, dict_get_default;
    rewrite H; [reflexivity|].
  cbn [py_not py_le_zero].
  destruct (z =? 0) eqn:E; [reflexivity|].
  apply Z.leb_le in Hz. rewrite Hz. reflexivity.
Qed.

(** A positive integer amount goes to the gateway once, as it is, with the
    currency and description of the request or else 'usd' and 'E-commerce
    order'; the answer carries the intent the gateway returned, or is 400
    with the gateway's message. *)
Theorem payment_intent_positive_amount (d : list (string * Json)) (z : Z) :
  dict_get "amount" d = Some (JInt z) -> 0 < z ->
  let currency := dict_get_default "currency" (JString "usd") d in
  let description :=
    dict_get_default "description" (JString "E-commerce order") d in
  create_payment_intent create_intent user d =
  (match create_intent z currency description user with
   | Returned intent => Replied intent
   | StripeError e => Refused HTTP_400_BAD_REQUEST e
   end,
   [CallCreate z currency description user]).
Proof.
  intros H Hz. unfold create_payment_intent.
  assert (dict_get_default "amount" JNull d = JInt z) as ->
    by (unfold dict_get_default; rewrite H; reflexivity).
  cbn [py_not py_le_zero py_int].
  assert ((z =? 0) = false) as -> by (apply Z.eqb_neq; lia).
  assert ((z <=? 0) = false) as -> by (apply Z.leb_gt; lia).
  destruct (create_intent z _ _ user); reflexivity.
Qed.

(** An amount that is a non-empty string is not refused as invalid: the
    comparison with 0 raises, the catch-all handler answers 500, and the
    gateway is not called. *)
Theorem payment_intent_string_amount (d : list (string * Json))
  (s : string) :
  dict_get "amount" d = Some (JString s) -> s <> "" ->
  create_payment_intent create_intent user d =
  (Refused HTTP_500_INTERNAL_SERVER_ERROR "Internal server error", []).
Proof.
  intros H Hs. unfold create_payment_intent, dict_get_default. rewrite H.
  cbn [py_not py_le_zero]. apply String.eqb_neq in Hs. rewrite Hs.
  reflexivity.
Qed.

(** Whatever the request holds, the gateway is asked for at most one intent,
    and never for an amount that is not positive. *)
Theorem payment_intent_calls (d : list (string * Json)) :
  match snd (create_payment_intent create_intent user d) with
  | [] => True
  | [CallCreate amount _ _ _] => 0 < amount
  | _ :: _ :: _ => False
  end.
Proof.
  unfold create_payment_intent.
  destruct (dict_get_default "amount" JNull d) as [|b|z|s|l|l];
    cbn [py_not py_le_zero py_int].
  - exact I.
  - destruct b; cbn [negb];
      [destruct (create_intent 1 _ _ user); cbn; lia | exact I].
  - destruct (z =? 0) eqn:E0; [exact I|].
    destruct (z <=? 0) eqn:E1; [exact I|].
    apply Z.leb_gt in E1.
    destruct (create_intent z _ _ user); cbn; exact E1.
  - destruct (String.eqb s ""); exact I.
  - destruct l; exact I.
  - destruct l; exact I.
Qed.

End PaymentIntentProperties.

Lemma payment_intent_invalid_amount_witness :
  create_payment_intent (fun _ _ _ _ => StripeError "unused") Examples.alice
    [("amount", JInt (-5)); ("currency", JString "eur")] =
  (Refused HTTP_400_BAD_REQUEST "Invalid amount", []).
Proof.
  apply (payment_intent_invalid_amount (fun _ _ _ _ => StripeError "unused")
           Examples.alice
           [("amount", JInt (-5)); ("currency", JString "eur")]).
  right. exists (-5). split; [reflexivity | lia].
Defined.

Lemma payment_intent_positive_amount_witness :
  create_payment_intent
    (fun _ _ _ _ =>
       Returned {| client_secret := "pi_1_secret"; intent_id := "pi_1" |})
    Examples.alice [("amount", JInt 2500)] =
  (Replied {| client_secret := "pi_1_secret"; intent_id := "pi_1" |},
   [CallCreate 2500 (JString "usd") (JString "E-commerce order")
      Examples.alice]).
Proof.
  apply (payment_intent_positive_amount
           (fun _ _ _ _ =>
              Returned {| client_secret := "pi_1_secret";
                          intent_id := "pi_1" |})
           Examples.alice [("amount", JInt 2500)] 2500);
    [reflexivity | lia].
Defined.

Lemma payment_intent_string_amount_witness :
  create_payment_intent (fun _ _ _ _ => StripeError "unused") Examples.alice
    [("amount", JString "2500")] =
  (Refused HTTP_500_INTERNAL_SERVER_ERROR "Internal server error", []).
Proof.
  apply (payment_intent_string_amount (fun _ _ _ _ => StripeError "unused")
           Examples.alice [("amount", JString "2500")] "2500");
    [reflexivity | discriminate].
Defined.

(** ** The dashboard figures *)

Lemma count_le_length (p : Order -> bool) (l : list Order) :
  count p l <= Z.of_nat (List.length l).
Proof.
  unfold count. apply Nat2Z.inj_le. apply filter_length_le.
Qed.

Lemma count_disjoint (p q : Order -> bool) (l : list Order) :
  (forall o, p o = true -> q o = false) ->
  count p l + count q l <= Z.of_nat (List.length l).
Proof.
  intros H. unfold count. induction l as [|r l IH]; cbn [filter]; [cbn; lia|].
  destruct (p r) eqn:Ep.
  - rewrite (H r Ep). cbn [List.length]. lia.
  - destruct (q r); cbn [List.length]; lia.
Qed.

(** On the dashboard an order counts for at most one of the two weeks, so
    the two weekly counts together do not exceed the total number of orders,
    and neither does the number of pending orders. *)
Theorem dashboard_counts_bounded (float : Type) (truediv : Z -> Z -> float)
  (mul_int : float -> Z -> float) (round2 : float -> float)
  (user : User) (now : Z) (w : World) (d : DashboardData float) :
  admin_dashboard_data truediv mul_int round2 user now w = Dashboard d ->
  dd_total_orders d = Z.of_nat (List.length (orders w)) /\
  this_week_orders now (orders w) + last_week_orders now (orders w) <=
    dd_total_orders d /\
  0 <= dd_pending_orders d <= dd_total_orders d.
Proof.
  unfold admin_dashboard_data. destruct (negb (is_admin user));
    [discriminate|].
  intros [= <-]. cbn [dd_total_orders dd_pending_orders].
  assert (count (fun _ => true) (orders w) =
          Z.of_nat (List.length (orders w))) as ->.
  { unfold count. f_equal. f_equal. induction (orders w) as [|r l IH];
      cbn; [reflexivity|]. rewrite IH. reflexivity. }
  split; [reflexivity|]. split.
  - unfold this_week_orders, last_week_orders. apply count_disjoint.
    intros o Ho. apply Z.leb_le in Ho. apply andb_false_intro2.
    apply Z.ltb_ge. exact Ho.
  - split; [unfold count; lia | apply count_le_length].
Qed.

Lemma dashboard_counts_bounded_witness :
  let w := Examples.world
             [Examples.order 1 "pending" "mock" "paid" None;
              Examples.order 2 "shipped" "mock" "paid" None] in
  exists d : DashboardData Q,
    dd_total_orders d = 2 /\
    this_week_orders (days 3) (orders w) + last_week_orders (days 3) (orders w)
      <= dd_total_orders d /\
    0 <= dd_pending_orders d <= dd_total_orders d.
Proof.
  intros w.
  eexists.
  apply (dashboard_counts_bounded Q Examples.q_truediv Examples.q_mul_int
           Examples.q_round2 Examples.root (days 3) w).
  reflexivity.
Defined.

Lemma order_detail_own_orders_witness :
  let w := Examples.world
             [Examples.order 1 "pending" "mock" "paid" None] in
  order_detail Examples.root 1 w =
  {| status_code := HTTP_404_NOT_FOUND; data := NotFound |}.
Proof.
  intros w.
  apply (proj2 (order_detail_own_orders Examples.root 1 w)).
  intros o [<- | []] _. discriminate.
Defined.
